(** * A model of [linear_sync.py]: the Linear GraphQL client and its
      command-line entry point.

    The Python module is embedded shallowly: every method of
    [LinearClient] and the function [main] become Rocq functions in a
    small monad that records the observable events of a run (lines
    printed, client objects constructed, HTTP POSTs issued) and ends
    either in a value or in a raised exception. *)

From stdpp Require Import gmap strings list fin_maps.
From Stdlib Require Import ZArith PrimFloat.

#[local] Open Scope Z_scope.
#[local] Set Warnings "-register-all,-clear-no-such-hyp".

(** ** Values *)

(** What [json.loads] can produce, which is also what the [json=]
    argument of [requests.post] accepts. Python dicts with string keys
    are finite maps. *)
Inductive json : Type :=
| JNull
| JBool (b : bool)
| JInt (n : Z)
| JFloat (f : float)
| JStr (s : string)
| JArr (l : list json)
| JObj (m : gmap string json).

(** Python truthiness, as used by [if x:], [not x] and [x or y]. *)
Definition truthy (v : json) : bool :=
  match v with
  | JNull => false
  | JBool b => b
  | JInt n => negb (n =? 0)
  | JFloat f => negb (PrimFloat.eqb f PrimFloat.zero)
  | JStr s => negb (String.eqb s "")
  | JArr l => negb (Nat.eqb (length l) 0)
  | JObj m => negb (Nat.eqb (size m) 0)
  end.

(** Truthiness of an [Optional[str]] argument: [None] and the empty
    string are both false. *)
Definition truthy_str (o : option string) : bool :=
  match o with
  | None => false
  | Some s => negb (String.eqb s "")
  end.

(** Truthiness of an [Optional[List[str]]] argument. *)
Definition truthy_list {A} (o : option (list A)) : bool :=
  match o with
  | None => false
  | Some l => negb (Nat.eqb (length l) 0)
  end.

(** An f-string or plain string literal before formatting: literal text
    and replacement fields. A replacement field [{e}] holds the value of
    [e]; its rendering by [str()] is not expanded. *)
Inductive fpart : Type :=
| FLit (s : string)
| FVal (v : json).

Definition message := list fpart.

(** ** Exceptions and events *)

Inductive exn : Type :=
| HTTPError (status : Z)        (* requests.exceptions.HTTPError *)
| RequestException              (* requests.post itself failed *)
| JSONDecodeError               (* response.json() on a non-JSON body *)
| Exception (msg : message)     (* raise Exception(msg) *)
| KeyError (k : string)
| IndexError
| TypeError
| AttributeError
| SystemExit (code : Z).        (* sys.exit(code) *)

(** The outgoing HTTP request: [requests.post(url, headers=..., json=...)]. *)
Record request : Type := mkRequest {
  req_url : string;
  req_headers : gmap string string;
  req_json : gmap string json
}.

(** The part of [requests.Response] the client looks at. [resp_json] is
    [None] when the body is not JSON. *)
Record response : Type := mkResponse {
  status_code : Z;
  resp_json : option json
}.

Inductive post_result : Type :=
| PostRaise (e : exn)
| PostResp (r : response).

Inductive event : Type :=
| EvPrint (line : message)      (* print(line) *)
| EvInit (api_key : string)     (* LinearClient(api_key) *)
| EvPost (req : request).       (* requests.post(...) *)

(** ** The monad of runs *)

Inductive outcome (A : Type) : Type :=
| Ret (a : A)
| Raise (e : exn).
Arguments Ret {A} a.
Arguments Raise {A} e.

Definition M (A : Type) : Type := (list event * outcome A)%type.

Definition ret {A} (a : A) : M A := ([], Ret a).

Definition raise {A} (e : exn) : M A := ([], Raise e).

Definition bind {A B} (c : M A) (k : A -> M B) : M B :=
  match c with
  | (t, Ret a) => let '(t', r) := k a in (t ++ t', r)
  | (t, Raise e) => (t, Raise e)
  end.

#[export] Instance M_ret : MRet M := @ret.
#[export] Instance M_bind : MBind M := fun A B k c => bind c k.

Definition emit (ev : event) : M unit := ([ev], Ret tt).

Definition trace {A} (c : M A) : list event := fst c.
Definition result {A} (c : M A) : outcome A := snd c.

(** The requests issued during a run, in order. *)
Definition posted (t : list event) : list request :=
  omap (fun ev => match ev with EvPost r => Some r | _ => None end) t.

(** The client objects constructed during a run. *)
Definition constructed (t : list event) : list string :=
  omap (fun ev => match ev with EvInit k => Some k | _ => None end) t.

(** The lines printed during a run. *)
Definition printed (t : list event) : list message :=
  omap (fun ev => match ev with EvPrint l => Some l | _ => None end) t.

(** ** Python built-ins used by the module *)

Definition print (line : message) : M unit := emit (EvPrint line).

Definition sys_exit {A} (code : Z) : M A := raise (SystemExit code).

(** [s in t] for two strings: substring test. *)
Fixpoint str_contains (needle hay : string) : bool :=
  String.prefix needle hay ||
  match hay with
  | EmptyString => false
  | String _ rest => str_contains needle rest
  end.

(** [k in v] for a string [k]: key test on a dict, element test on a
    list, substring test on a string, [TypeError] otherwise. *)
Definition py_in (k : string) (v : json) : M bool :=
  match v with
  | JObj m => ret (bool_decide (is_Some (m !! k)))
  | JArr l =>
      ret (existsb (fun x => match x with JStr s => String.eqb s k | _ => false end) l)
  | JStr s => ret (str_contains k s)
  | _ => raise TypeError
  end.

(** [v[k]] for a string [k]. *)
Definition getitem (v : json) (k : string) : M json :=
  match v with
  | JObj m =>
      match m !! k with
      | Some x => ret x
      | None => raise (KeyError k)
      end
  | _ => raise TypeError
  end.

(** [v.get(k)]: only dicts have the method. *)
Definition py_get (v : json) (k : string) : M json :=
  match v with
  | JObj m => ret (default JNull (m !! k))
  | _ => raise AttributeError
  end.

(** [argv[i]] on a list of strings. *)
Definition argv_at (argv : list string) (i : nat) : M string :=
  match argv !! i with
  | Some s => ret s
  | None => raise IndexError
  end.

(** What [for x in v:] iterates over. Iterating a dict yields its keys;
    the model lists them in the order of [map_to_list]. *)
Definition py_iter (v : json) : M (list json) :=
  match v with
  | JArr l => ret l
  | JObj m => ret ((fun kv => JStr kv.1) <$> map_to_list m)
  | JStr s => ret ((fun c => JStr (String c EmptyString)) <$> String.list_ascii_of_string s)
  | _ => raise TypeError
  end.

Fixpoint for_each {A} (l : list A) (body : A -> M unit) : M unit :=
  match l with
  | [] => ret tt
  | x :: rest => body x ;; for_each rest body
  end.

(** ** The [requests] calls *)

(** [response.raise_for_status()]: the library raises [HTTPError] for
    the client-error and server-error classes, 400 to 599, and returns
    for every other status. *)
Definition raise_for_status (r : response) : M unit :=
  if (400 <=? status_code r) && (status_code r <? 600)
  then raise (HTTPError (status_code r))
  else ret tt.

(** [response.json()]. *)
Definition response_json (r : response) : M json :=
  match resp_json r with
  | Some v => ret v
  | None => raise JSONDecodeError
  end.

(** ** The GraphQL documents

    The triple-quoted literals of the methods, character for character
    (each starts with a line break and ends with the indentation of the
    closing quotes). *)

Definition get_teams_query : string :=
  "
        query {
            teams {
                nodes {
                    id
                    name
                    key
                }
            }
        }
        ".

Definition get_projects_query : string :=
  "
        query GetProjects($teamId: String!) {
            team(id: $teamId) {
                projects {
                    nodes {
                        id
                        name
                        description
                        state
                    }
                }
            }
        }
        ".

Definition get_workflow_states_query : string :=
  "
        query GetStates($teamId: String!) {
            team(id: $teamId) {
                states {
                    nodes {
                        id
                        name
                        type
                        color
                    }
                }
            }
        }
        ".

Definition create_issue_mutation : string :=
  "
        mutation CreateIssue(
            $teamId: String!
            $title: String!
            $description: String
            $priority: Int
            $projectId: String
            $stateId: String
            $labelIds: [String!]
        ) {
            issueCreate(
                input: {
                    teamId: $teamId
                    title: $title
                    description: $description
                    priority: $priority
                    projectId: $projectId
                    stateId: $stateId
                    labelIds: $labelIds
                }
            ) {
                success
                issue {
                    id
                    identifier
                    title
                    description
                    priority
                    url
                    state {
                        name
                    }
                }
            }
        }
        ".

Definition update_issue_mutation : string :=
  "
        mutation UpdateIssue(
            $issueId: String!
            $stateId: String
            $title: String
            $description: String
        ) {
            issueUpdate(
                id: $issueId
                input: {
                    stateId: $stateId
                    title: $title
                    description: $description
                }
            ) {
                success
                issue {
                    id
                    identifier
                    title
                    state {
                        name
                    }
                    url
                }
            }
        }
        ".

Definition get_issue_query : string :=
  "
        query GetIssue($identifier: String!) {
            issue(identifier: $identifier) {
                id
                identifier
                title
                description
                priority
                state {
                    id
                    name
                }
                url
                labels {
                    nodes {
                        name
                    }
                }
            }
        }
        ".

Definition search_issues_query_str : string :=
  "
        query SearchIssues($teamId: String!, $query: String!) {
            team(id: $teamId) {
                issues(filter: {query: $query}) {
                    nodes {
                        id
                        identifier
                        title
                        state {
                            name
                        }
                        priority
                        url
                    }
                }
            }
        }
        ".

(** ** class LinearClient *)

Record client : Type := mkClient {
  api_key : string;
  endpoint : string;
  headers : gmap string string
}.

(** [variables or {}]. *)
Definition or_empty (variables : option (gmap string json)) : gmap string json :=
  match variables with
  | Some m => if truthy (JObj m) then m else ∅
  | None => ∅
  end.

(** [if o: variables[k] = o] for an [Optional[str]] argument [o]. *)
Definition set_if_truthy (k : string) (o : option string)
    (variables : gmap string json) : gmap string json :=
  match o with
  | Some s => if truthy_str o then <[k := JStr s]> variables else variables
  | None => variables
  end.

Module LinearClient.

(** [__init__]. *)
Definition init (api_key : string) : M client :=
  emit (EvInit api_key);;
  ret {| api_key := api_key;
         endpoint := "https://api.linear.app/graphql";
         headers := <["Authorization" := api_key]>
                      (<["Content-Type" := "application/json"]> ∅) |}.

(** The variables dict that [create_issue] builds. *)
Definition create_issue_variables (team_id title description : string)
    (priority : Z) (project_id state_id : option string) : gmap string json :=
  let variables : gmap string json :=
    <["teamId" := JStr team_id]>
      (<["title" := JStr title]>
        (<["description" := JStr description]>
          (<["priority" := JInt priority]> ∅))) in
  let variables := set_if_truthy "projectId" project_id variables in
  let variables := set_if_truthy "stateId" state_id variables in
  variables.

(** The variables dict that [update_issue] builds. *)
Definition update_issue_variables (issue_id : string)
    (state_id title description : option string) : gmap string json :=
  let variables : gmap string json := <["issueId" := JStr issue_id]> ∅ in
  let variables := set_if_truthy "stateId" state_id variables in
  let variables := set_if_truthy "title" title variables in
  let variables := set_if_truthy "description" description variables in
  variables.

Section WithTransport.

(** [requests.post] of the environment the client runs in: what the
    remote end, or a stub, answers to a request. *)
Variable post : request -> post_result.

Definition requests_post (url : string) (hdrs : gmap string string)
    (body : gmap string json) : M response :=
  let req := mkRequest url hdrs body in
  emit (EvPost req);;
  match post req with
  | PostRaise e => raise e
  | PostResp r => ret r
  end.

Definition query (self : client) (query : string)
    (variables : option (gmap string json)) : M json :=
  response ← requests_post (endpoint self) (headers self)
     (<["query" := JStr query]>
        (<["variables" := JObj (or_empty variables)]> ∅));
  raise_for_status response;;
  data ← response_json response;
  has_errors ← py_in "errors" data;
  if has_errors : bool then
    errors ← getitem data "errors";
    raise (Exception [FLit "GraphQL Error: "; FVal errors])
  else
    py_get data "data".

Definition get_teams (self : client) : M json :=
  data ← query self get_teams_query None;
  teams ← getitem data "teams";
  getitem teams "nodes".

Definition get_projects (self : client) (team_id : string) : M json :=
  data ← query self get_projects_query
            (Some (<["teamId" := JStr team_id]> ∅));
  team ← getitem data "team";
  projects ← getitem team "projects";
  getitem projects "nodes".

Definition get_workflow_states (self : client) (team_id : string) : M json :=
  data ← query self get_workflow_states_query
            (Some (<["teamId" := JStr team_id]> ∅));
  team ← getitem data "team";
  states ← getitem team "states";
  getitem states "nodes".

Definition create_issue (self : client) (team_id title description : string)
    (priority : Z) (project_id state_id : option string)
    (labels : option (list string)) : M json :=
  let labels_input : list (gmap string json) :=
    if truthy_list labels
    then (fun name => <["name" := JStr name]> ∅) <$> default [] labels
    else [] in
  let variables :=
    create_issue_variables team_id title description priority
      project_id state_id in
  data ← query self create_issue_mutation (Some variables);
  payload ← getitem data "issueCreate";
  success ← getitem payload "success";
  if negb (truthy success) then
    raise (Exception [FLit "Failed to create issue"])
  else
    payload ← getitem data "issueCreate";
    getitem payload "issue".

Definition update_issue (self : client) (issue_id : string)
    (state_id title description : option string) : M json :=
  let variables := update_issue_variables issue_id state_id title description in
  data ← query self update_issue_mutation (Some variables);
  payload ← getitem data "issueUpdate";
  success ← getitem payload "success";
  if negb (truthy success) then
    raise (Exception [FLit "Failed to update issue"])
  else
    payload ← getitem data "issueUpdate";
    getitem payload "issue".

Definition get_issue (self : client) (identifier : string) : M json :=
  data ← query self get_issue_query
            (Some (<["identifier" := JStr identifier]> ∅));
  getitem data "issue".

(** The source names the second argument [query]; it is [query_text]
    here so that the method [query] stays in scope. *)
Definition search_issues (self : client) (team_id query_text : string) : M json :=
  data ← query self search_issues_query_str
            (Some (<["teamId" := JStr team_id]>
                     (<["query" := JStr query_text]> ∅)));
  team ← getitem data "team";
  issues ← getitem team "issues";
  getitem issues "nodes".

End WithTransport.

End LinearClient.

(** ** Calls with default arguments *)

(** A call of one of the seven operations as a caller writes it: an
    optional argument is [None] when the caller leaves it out, and the
    default of the method's signature is then used. *)
Inductive call : Type :=
| GetTeams
| GetProjects (team_id : string)
| GetWorkflowStates (team_id : string)
| CreateIssue (team_id title : string) (description : option string)
    (priority : option Z) (project_id state_id : option string)
    (labels : option (list string))
| UpdateIssue (issue_id : string) (state_id title description : option string)
| GetIssue (identifier : string)
| SearchIssues (team_id : string) (query : option string).

Definition perform (post : request -> post_result) (self : client)
    (c : call) : M json :=
  match c with
  | GetTeams => LinearClient.get_teams post self
  | GetProjects team_id => LinearClient.get_projects post self team_id
  | GetWorkflowStates team_id =>
      LinearClient.get_workflow_states post self team_id
  | CreateIssue team_id title description priority project_id state_id labels =>
      LinearClient.create_issue post self team_id title
        (default "" description) (default 0 priority)
        project_id state_id labels
  | UpdateIssue issue_id state_id title description =>
      LinearClient.update_issue post self issue_id state_id title description
  | GetIssue identifier => LinearClient.get_issue post self identifier
  | SearchIssues team_id query =>
      LinearClient.search_issues post self team_id (default "" query)
  end.

(** ** def main() *)

(** What [main] prints when no command is given. *)
Definition usage_lines : list message :=
  [ [FLit "Usage: python linear_sync.py <command> [args]"];
    [FLit "Commands:"];
    [FLit "  teams - List all teams"];
    [FLit "  projects <team_id> - List projects"];
    [FLit "  create <team_id> <title> - Create issue"] ].

Definition main (post : request -> post_result) (argv : list string)
    (environ : gmap string string) : M unit :=
  (if (length argv <? 2)%nat then
     print [FLit "Usage: python linear_sync.py <command> [args]"];;
     print [FLit "Commands:"];;
     print [FLit "  teams - List all teams"];;
     print [FLit "  projects <team_id> - List projects"];;
     print [FLit "  create <team_id> <title> - Create issue"];;
     sys_exit 1
   else ret tt);;
  let api_key := environ !! "LINEAR_API_KEY" in
  (if negb (truthy_str api_key) then
     print [FLit "Error: LINEAR_API_KEY environment variable not set"];;
     sys_exit 1
   else ret tt);;
  client ← LinearClient.init (default "" api_key);
  command ← argv_at argv 1;
  if String.eqb command "teams" then
    teams ← LinearClient.get_teams post client;
    print [FLit "Teams:"];;
    teams ← py_iter teams;
    for_each teams (fun team =>
      name ← getitem team "name";
      id ← getitem team "id";
      key ← getitem team "key";
      print [FLit "  "; FVal name; FLit " ("; FVal id;
             FLit ") - Key: "; FVal key])
  else if String.eqb command "projects" then
    (if (length argv <? 3)%nat then
       print [FLit "Usage: python linear_sync.py projects <team_id>"];;
       sys_exit 1
     else ret tt);;
    team_id ← argv_at argv 2;
    projects ← LinearClient.get_projects post client team_id;
    print [FLit "Projects:"];;
    projects ← py_iter projects;
    for_each projects (fun project =>
      name ← getitem project "name";
      id ← getitem project "id";
      print [FLit "  "; FVal name; FLit " ("; FVal id; FLit ")"])
  else if String.eqb command "create" then
    (if (length argv <? 4)%nat then
       print [FLit "Usage: python linear_sync.py create <team_id> <title>"];;
       sys_exit 1
     else ret tt);;
    team_id ← argv_at argv 2;
    title ← argv_at argv 3;
    issue ← LinearClient.create_issue post client team_id title
              "Created via API" 0 None None None;
    identifier ← getitem issue "identifier";
    print [FLit "Created issue: "; FVal identifier];;
    url ← getitem issue "url";
    print [FLit "URL: "; FVal url]
  else
    print [FLit "Unknown command: "; FVal (JStr command)];;
    sys_exit 1.

(** A line is a usage string when its text starts with "Usage:". *)
Definition is_usage (line : message) : bool :=
  match line with
  | FLit s :: _ => String.prefix "Usage:" s
  | _ => false
  end.

(** A run of [main] that ends in [sys.exit(1)] after the given events,
    none of them a request; [usage] tells whether a usage string is
    among the lines printed. *)
Definition exits_with (c : M unit) (events : list event) (usage : bool) : Prop :=
  c = (events, Raise (SystemExit 1)) /\
  posted events = [] /\
  existsb is_usage (printed events) = usage.

(** ** The error kinds of the specification, as the code raises them *)

Definition TransportError (e : exn) : Prop :=
  exists status, e = HTTPError status.

Definition RemoteAPIError (errors : json) (e : exn) : Prop :=
  e = Exception [FLit "GraphQL Error: "; FVal errors].

Definition OperationFailedError (e : exn) : Prop :=
  e = Exception [FLit "Failed to create issue"] \/
  e = Exception [FLit "Failed to update issue"].

(** ** What a request carries *)

(** The request [query] sends for a document and a variables dict. *)
Definition query_request (self : client) (document : string)
    (variables : gmap string json) : request :=
  mkRequest (endpoint self) (headers self)
    (<["query" := JStr document]> (<["variables" := JObj variables]> ∅)).

(** The variable mapping of a request body. *)
Definition request_variables (r : request) : option (gmap string json) :=
  match req_json r !! "variables" with
  | Some (JObj m) => Some m
  | _ => None
  end.

(** A response is passed on by [raise_for_status]. *)
Definition status_ok (r : response) : Prop :=
  ~ (400 <= status_code r < 600).

(** A computation that prints nothing, builds no client and sends
    nothing. *)
Definition silent {A} (c : M A) : Prop := trace c = [].

(** ** Required and optional inputs *)

(** The caller gave only the required inputs. *)
Definition only_required (c : call) : bool :=
  match c with
  | CreateIssue _ _ None None None None None => true
  | CreateIssue _ _ _ _ _ _ _ => false
  | UpdateIssue _ None None None => true
  | UpdateIssue _ _ _ _ => false
  | SearchIssues _ None => true
  | SearchIssues _ _ => false
  | _ => true
  end.

(** The required inputs of a call, under their variable names. *)
Definition required_variables (c : call) : gmap string json :=
  match c with
  | GetTeams => ∅
  | GetProjects team_id => <["teamId" := JStr team_id]> ∅
  | GetWorkflowStates team_id => <["teamId" := JStr team_id]> ∅
  | CreateIssue team_id title _ _ _ _ _ =>
      <["teamId" := JStr team_id]> (<["title" := JStr title]> ∅)
  | UpdateIssue issue_id _ _ _ => <["issueId" := JStr issue_id]> ∅
  | GetIssue identifier => <["identifier" := JStr identifier]> ∅
  | SearchIssues team_id _ => <["teamId" := JStr team_id]> ∅
  end.

(** The optional inputs whose default in the signature is a value
    ([description: str = ""], [priority: int = 0], [query: str = ""]),
    with that default. *)
Definition default_variables (c : call) : gmap string json :=
  match c with
  | CreateIssue _ _ _ _ _ _ _ =>
      <["description" := JStr ""]> (<["priority" := JInt 0]> ∅)
  | SearchIssues _ _ => <["query" := JStr ""]> ∅
  | _ => ∅
  end.

(** The variable names of the optional inputs whose default is [None]. *)
Definition omitted_keys (c : call) : gset string :=
  match c with
  | CreateIssue _ _ _ _ _ _ _ => {["projectId"; "stateId"; "labelIds"]}
  | UpdateIssue _ _ _ _ => {["stateId"; "title"; "description"]}
  | _ => ∅
  end.

(** ** Fixed parts of a call *)

(** The document each operation sends: a literal of the method, the
    same whatever the arguments. *)
Definition document (c : call) : string :=
  match c with
  | GetTeams => get_teams_query
  | GetProjects _ => get_projects_query
  | GetWorkflowStates _ => get_workflow_states_query
  | CreateIssue _ _ _ _ _ _ _ => create_issue_mutation
  | UpdateIssue _ _ _ _ => update_issue_mutation
  | GetIssue _ => get_issue_query
  | SearchIssues _ _ => search_issues_query_str
  end.

(** The first key each operation subscripts the returned data with. *)
Definition first_key (c : call) : string :=
  match c with
  | GetTeams => "teams"
  | GetProjects _ => "team"
  | GetWorkflowStates _ => "team"
  | CreateIssue _ _ _ _ _ _ _ => "issueCreate"
  | UpdateIssue _ _ _ _ => "issueUpdate"
  | GetIssue _ => "issue"
  | SearchIssues _ _ => "team"
  end.

(** The line [main] prints for a team and for a project. *)
Definition team_line (team : gmap string json) : message :=
  [FLit "  "; FVal (default JNull (team !! "name"));
   FLit " ("; FVal (default JNull (team !! "id"));
   FLit ") - Key: "; FVal (default JNull (team !! "key"))].

Definition project_line (project : gmap string json) : message :=
  [FLit "  "; FVal (default JNull (project !! "name"));
   FLit " ("; FVal (default JNull (project !! "id")); FLit ")"].

(** An object that has all the listed keys. *)
Definition has_keys (keys : list string) (o : gmap string json) : Prop :=
  Forall (fun k => is_Some (o !! k)) keys.

(** ** Stub transports and sample payloads *)

(** A client as [LinearClient("lin_api_test")] builds it. *)
Definition demo_client : client :=
  {| api_key := "lin_api_test";
     endpoint := "https://api.linear.app/graphql";
     headers := <["Authorization" := "lin_api_test"]>
                  (<["Content-Type" := "application/json"]> ∅) |}.

(** A transport that answers every request with the same status and
    JSON body. *)
Definition stub_reply (status : Z) (body : json) : request -> post_result :=
  fun _ => PostResp (mkResponse status (Some body)).

(** [{"data": {"teams": {"nodes": []}}}] *)
Definition teams_fields : gmap string json :=
  <["data" := JObj (<["teams" := JObj (<["nodes" := JArr []]> ∅)]> ∅)]> ∅.
Definition teams_body : json := JObj teams_fields.

(** [{"errors": [{"message": "boom"}], "data": {"teams": {"nodes": []}}}] *)
Definition errors_list : json :=
  JArr [JObj (<["message" := JStr "boom"]> ∅)].
Definition errors_fields : gmap string json :=
  <["errors" := errors_list]> teams_fields.
Definition errors_body : json := JObj errors_fields.

(** [{"data": {"issueCreate": {"success": false, "issue": null}}}] and
    its [issueUpdate] twin. *)
Definition failed_payload : gmap string json :=
  <["success" := JBool false]> (<["issue" := JNull]> ∅).
Definition create_failed_data : gmap string json :=
  <["issueCreate" := JObj failed_payload]> ∅.
Definition update_failed_data : gmap string json :=
  <["issueUpdate" := JObj failed_payload]> ∅.
Definition create_failed_fields : gmap string json :=
  <["data" := JObj create_failed_data]> ∅.
Definition update_failed_fields : gmap string json :=
  <["data" := JObj update_failed_data]> ∅.

(** A transport that answers a create-issue request with a well-formed
    [issueCreate] success payload; the issue it embeds carries the
    title found in the request's variables. *)
Definition echo_issue (req : request) : json :=
  let title :=
    match request_variables req with
    | Some vars => default JNull (vars !! "title")
    | None => JNull
    end in
  JObj (<["id" := JStr "6f1c2f0e"]>
         (<["identifier" := JStr "T1-7"]>
           (<["title" := title]>
             (<["url" := JStr "https://linear.app/t1/issue/T1-7"]> ∅)))).
Definition echo_payload (req : request) : gmap string json :=
  <["success" := JBool true]> (<["issue" := echo_issue req]> ∅).
Definition echo_data (req : request) : gmap string json :=
  <["issueCreate" := JObj (echo_payload req)]> ∅.
Definition echo_fields (req : request) : gmap string json :=
  <["data" := JObj (echo_data req)]> ∅.
Definition echo_create_stub : request -> post_result :=
  fun req => PostResp (mkResponse 200 (Some (JObj (echo_fields req)))).

(** An environment that holds the credential. *)
Definition demo_environ : gmap string string :=
  <["LINEAR_API_KEY" := "lin_api_test"]> ∅.

(** [{"data": {"issueCreate": {"success": null}}}] *)
Definition null_success_payload : gmap string json :=
  <["success" := JNull]> ∅.
Definition null_success_data : gmap string json :=
  <["issueCreate" := JObj null_success_payload]> ∅.
Definition null_success_fields : gmap string json :=
  <["data" := JObj null_success_data]> ∅.

(** [{"data": {"issueUpdate": {"success": 1, "issue": {...}}}}] *)
Definition updated_issue : json :=
  JObj (<["id" := JStr "6f1c2f0e"]>
         (<["identifier" := JStr "T1-7"]>
           (<["title" := JStr "Renamed"]>
             (<["url" := JStr "https://linear.app/t1/issue/T1-7"]> ∅)))).
Definition update_ok_payload : gmap string json :=
  <["success" := JInt 1]> (<["issue" := updated_issue]> ∅).
Definition update_ok_data : gmap string json :=
  <["issueUpdate" := JObj update_ok_payload]> ∅.
Definition update_ok_fields : gmap string json :=
  <["data" := JObj update_ok_data]> ∅.

(** [{"data": {"issueCreate": {"success": true}}}]: no issue entry. *)
Definition no_issue_payload : gmap string json :=
  <["success" := JBool true]> ∅.
Definition no_issue_data : gmap string json :=
  <["issueCreate" := JObj no_issue_payload]> ∅.
Definition no_issue_fields : gmap string json :=
  <["data" := JObj no_issue_data]> ∅.

(** An answer to the teams query with two teams, one to the projects
    query with one project. *)
Definition team_eng : gmap string json :=
  <["id" := JStr "t-1"]> (<["name" := JStr "Engineering"]>
    (<["key" := JStr "ENG"]> ∅)).
Definition team_ops : gmap string json :=
  <["id" := JStr "t-2"]> (<["name" := JStr "Operations"]>
    (<["key" := JStr "OPS"]> ∅)).
Definition two_teams_obj : gmap string json :=
  <["nodes" := JArr (JObj <$> [team_eng; team_ops])]> ∅.
Definition two_teams_data : gmap string json :=
  <["teams" := JObj two_teams_obj]> ∅.
Definition two_teams_fields : gmap string json :=
  <["data" := JObj two_teams_data]> ∅.

Definition project_site : gmap string json :=
  <["id" := JStr "p-1"]> (<["name" := JStr "Website"]>
    (<["description" := JStr ""]> (<["state" := JStr "started"]> ∅))).
Definition one_project_obj : gmap string json :=
  <["nodes" := JArr (JObj <$> [project_site])]> ∅.
Definition one_project_team : gmap string json :=
  <["projects" := JObj one_project_obj]> ∅.
Definition one_project_data : gmap string json :=
  <["team" := JObj one_project_team]> ∅.
Definition one_project_fields : gmap string json :=
  <["data" := JObj one_project_data]> ∅.

(** The issue of [echo_issue], as an object. *)
Definition created_issue : gmap string json :=
  <["id" := JStr "6f1c2f0e"]>
    (<["identifier" := JStr "T1-7"]>
      (<["title" := JStr "Fix bug"]>
        (<["url" := JStr "https://linear.app/t1/issue/T1-7"]> ∅))).
Definition created_payload : gmap string json :=
  <["success" := JBool true]> (<["issue" := JObj created_issue]> ∅).
Definition created_data : gmap string json :=
  <["issueCreate" := JObj created_payload]> ∅.
Definition created_fields : gmap string json :=
  <["data" := JObj created_data]> ∅.

(** An answer to the teams query whose second entry is an empty object. *)
Definition broken_teams_obj : gmap string json :=
  <["nodes" := JArr ((JObj <$> [team_eng]) ++ [JObj ∅; JObj team_ops])]> ∅.
Definition broken_teams_data : gmap string json :=
  <["teams" := JObj broken_teams_obj]> ∅.
Definition broken_teams_fields : gmap string json :=
  <["data" := JObj broken_teams_data]> ∅.

(** * Properties *)

(** ** Running [query] *)

Section QueryFacts.

Variable post : request -> post_result.
Variable self : client.

Implicit Types (document : string) (variables : option (gmap string json)).

Lemma or_empty_Some (m : gmap string json) : or_empty (Some m) = m.
Proof.
  unfold or_empty, truthy.
  destruct (Nat.eqb (size m) 0) eqn:E; [|reflexivity]. simpl.
  apply Nat.eqb_eq in E. symmetry. by apply map_size_empty_iff.
Qed.

(** [query] is one POST followed by event-free decoding. *)
Lemma query_unfold document variables :
  LinearClient.query post self document variables =
    let req := query_request self document (or_empty variables) in
    ([EvPost req],
     match post req with
     | PostRaise e => Raise e
     | PostResp r =>
         if (400 <=? status_code r) && (status_code r <? 600)
         then Raise (HTTPError (status_code r))
         else match resp_json r with
              | None => Raise JSONDecodeError
              | Some data =>
                  match result (py_in "errors" data) with
                  | Raise e => Raise e
                  | Ret true =>
                      match result (getitem data "errors") with
                      | Ret errors =>
                          Raise (Exception [FLit "GraphQL Error: "; FVal errors])
                      | Raise e => Raise e
                      end
                  | Ret false => result (py_get data "data")
                  end
              end
     end).
Proof.
  unfold LinearClient.query, LinearClient.requests_post, query_request.
  cbn. destruct (post _) as [e|r]; cbn; [reflexivity|].
  unfold raise_for_status.
  destruct ((400 <=? status_code r) && (status_code r <? 600)); cbn;
    [reflexivity|].
  unfold response_json. destruct (resp_json r) as [data|]; cbn; [|reflexivity].
  destruct data as [| | | | s | l | m]; cbn; try reflexivity.
  - destruct (str_contains "errors" s); reflexivity.
  - destruct (existsb _ l); reflexivity.
  - destruct (m !! "errors"); reflexivity.
Qed.

Lemma status_ok_test (r : response) :
  status_ok r -> (400 <=? status_code r) && (status_code r <? 600) = false.
Proof. unfold status_ok. intros H. apply andb_false_iff. lia. Qed.

Lemma status_bad_test (r : response) :
  400 <= status_code r < 600 ->
  (400 <=? status_code r) && (status_code r <? 600) = true.
Proof. intros H. apply andb_true_iff. lia. Qed.

Lemma query_trace document variables :
  trace (LinearClient.query post self document variables) =
    [EvPost (query_request self document (or_empty variables))].
Proof. by rewrite query_unfold. Qed.

(** A passing status and an object body without an "errors" key: the
    value under "data", [None] when there is none. *)
Lemma query_success document variables r body :
  post (query_request self document (or_empty variables)) = PostResp r ->
  status_ok r ->
  resp_json r = Some (JObj body) ->
  body !! "errors" = None ->
  LinearClient.query post self document variables =
    ([EvPost (query_request self document (or_empty variables))],
     Ret (default JNull (body !! "data"))).
Proof.
  intros Hpost Hok Hjson Herr. rewrite query_unfold. cbn zeta.
  rewrite Hpost, (status_ok_test _ Hok), Hjson. cbn.
  rewrite Herr. reflexivity.
Qed.

(** A status that [raise_for_status] rejects. *)
Lemma query_http_error document variables r :
  post (query_request self document (or_empty variables)) = PostResp r ->
  400 <= status_code r < 600 ->
  LinearClient.query post self document variables =
    ([EvPost (query_request self document (or_empty variables))],
     Raise (HTTPError (status_code r))).
Proof.
  intros Hpost Hbad. rewrite query_unfold. cbn zeta.
  by rewrite Hpost, (status_bad_test _ Hbad).
Qed.

(** A passing status and an object body with an "errors" key. *)
Lemma query_graphql_error document variables r body errors :
  post (query_request self document (or_empty variables)) = PostResp r ->
  status_ok r ->
  resp_json r = Some (JObj body) ->
  body !! "errors" = Some errors ->
  LinearClient.query post self document variables =
    ([EvPost (query_request self document (or_empty variables))],
     Raise (Exception [FLit "GraphQL Error: "; FVal errors])).
Proof.
  intros Hpost Hok Hjson Herr. rewrite query_unfold. cbn zeta.
  rewrite Hpost, (status_ok_test _ Hok), Hjson. cbn.
  rewrite Herr. reflexivity.
Qed.

End QueryFacts.

(** ** The execute primitive *)

(** C9. When the HTTP status is successful and the decoded body is an
    object without an "errors" key, [query] returns the value under
    "data"; when the body has no "data" key it returns [None] instead
    of failing. *)
Theorem query_returns_data (post : request -> post_result) (self : client)
    (document : string) (variables : option (gmap string json))
    (r : response) (body : gmap string json) :
  post (query_request self document (or_empty variables)) = PostResp r ->
  200 <= status_code r < 300 ->
  resp_json r = Some (JObj body) ->
  body !! "errors" = None ->
  (forall d, body !! "data" = Some d ->
     result (LinearClient.query post self document variables) = Ret d) /\
  (body !! "data" = None ->
     result (LinearClient.query post self document variables) = Ret JNull).
Proof.
  intros Hpost Hstatus Hjson Herr.
  assert (Hok : status_ok r) by (unfold status_ok; lia).
  rewrite (query_success post self _ _ _ _ Hpost Hok Hjson Herr).
  split; [intros d Hd | intros Hd]; rewrite Hd; reflexivity.
Qed.

Lemma query_returns_data_witness :
  result (LinearClient.query (stub_reply 200 teams_body) demo_client
            get_teams_query None)
    = Ret (JObj (<["teams" := JObj (<["nodes" := JArr []]> ∅)]> ∅)) /\
  result (LinearClient.query (stub_reply 200 (JObj ∅)) demo_client
            get_teams_query None)
    = Ret JNull.
Proof.
  split.
  - apply (query_returns_data (stub_reply 200 teams_body) demo_client
             get_teams_query None (mkResponse 200 (Some teams_body))
             teams_fields eq_refl);
      [simpl; lia | reflexivity | reflexivity | reflexivity].
  - apply (query_returns_data (stub_reply 200 (JObj ∅)) demo_client
             get_teams_query None (mkResponse 200 (Some (JObj ∅))) ∅
             eq_refl);
      [simpl; lia | reflexivity | reflexivity | reflexivity].
Defined.

(** Without an "errors" key in an object body, whatever [query] raises
    is not built by [raise Exception(...)]. *)
Lemma query_no_exception (post : request -> post_result) (self : client)
    (document : string) (variables : option (gmap string json))
    (r : response) :
  post (query_request self document (or_empty variables)) = PostResp r ->
  (forall body, resp_json r = Some (JObj body) -> body !! "errors" = None) ->
  forall msg,
    result (LinearClient.query post self document variables)
      <> Raise (Exception msg).
Proof.
  intros Hpost Habsent msg. rewrite query_unfold. cbn zeta.
  rewrite Hpost. unfold result. cbn [snd].
  destruct ((400 <=? status_code r) && (status_code r <? 600)); [discriminate|].
  destruct (resp_json r) as [data|] eqn:Hjson; [|discriminate].
  destruct data as [| | | | s | l | m]; cbn; try discriminate.
  - destruct (str_contains "errors" s); discriminate.
  - destruct (existsb _ l); discriminate.
  - rewrite (Habsent m eq_refl). discriminate.
Qed.

(** C2. When the decoded body holds a non-empty "errors" list, [query]
    raises the RemoteAPIError exception, whose message embeds that very
    list, whether or not a "data" key is present as well; when the body
    has no "errors" key, [query] raises no RemoteAPIError. *)
Theorem query_raises_on_errors (post : request -> post_result) (self : client)
    (document : string) (variables : option (gmap string json))
    (r : response) :
  post (query_request self document (or_empty variables)) = PostResp r ->
  (forall body e es,
     status_ok r ->
     resp_json r = Some (JObj body) ->
     body !! "errors" = Some (JArr (e :: es)) ->
     exists x,
       result (LinearClient.query post self document variables) = Raise x /\
       RemoteAPIError (JArr (e :: es)) x) /\
  ((forall body, resp_json r = Some (JObj body) -> body !! "errors" = None) ->
   forall errors x,
     result (LinearClient.query post self document variables) = Raise x ->
     ~ RemoteAPIError errors x).
Proof.
  intros Hpost. split.
  - intros body e es Hok Hjson Herr.
    rewrite (query_graphql_error post self _ _ _ _ _ Hpost Hok Hjson Herr).
    eexists. split; reflexivity.
  - intros Habsent errors x Hx Hremote. unfold RemoteAPIError in Hremote.
    subst x. revert Hx. by apply query_no_exception with (r := r).
Qed.

Lemma query_raises_on_errors_witness :
  (exists x,
     result (LinearClient.query (stub_reply 200 errors_body) demo_client
               get_teams_query None) = Raise x /\
     RemoteAPIError errors_list x) /\
  (forall errors x,
     result (LinearClient.query (stub_reply 200 teams_body) demo_client
               get_teams_query None) = Raise x ->
     ~ RemoteAPIError errors x).
Proof.
  split.
  - refine (proj1 (query_raises_on_errors (stub_reply 200 errors_body)
                     demo_client get_teams_query None
                     (mkResponse 200 (Some errors_body)) eq_refl)
              errors_fields _ [] _ eq_refl eq_refl).
    unfold status_ok. simpl. lia.
  - refine (proj2 (query_raises_on_errors (stub_reply 200 teams_body)
                     demo_client get_teams_query None
                     (mkResponse 200 (Some teams_body)) eq_refl) _).
    intros body H. injection H as <-. reflexivity.
Defined.

(** ** Transport failures *)

(** C5 as stated fails: status 304 is outside 200..299, yet
    [raise_for_status] lets it through: with a JSON body the call returns a parsed result and
    raises nothing. *)
Lemma transport_error_non_2xx_counterexample :
  let r := mkResponse 304 (Some teams_body) in
  ~ (200 <= status_code r < 300) /\
  perform (fun _ => PostResp r) demo_client GetTeams
    = ([EvPost (query_request demo_client get_teams_query ∅)], Ret (JArr [])) /\
  ~ (exists e,
       result (perform (fun _ => PostResp r) demo_client GetTeams) = Raise e /\
       TransportError e).
Proof.
  cbn zeta. split; [simpl; lia|]. split; [reflexivity|].
  intros (e & He & _). discriminate He.
Qed.

Ltac http_error_case H :=
  cbn zeta;
  match goal with
  | |- context [LinearClient.query ?post ?self ?d ?v] =>
      destruct (H (query_request self d (or_empty v))) as (r & Hr & Hbad);
      rewrite (query_http_error post self d v r Hr Hbad);
      exists (query_request self d (or_empty v)), r;
      split; [exact Hr | reflexivity]
  end.

(** C5, amended. If the transport answers with a client-error or
    server-error status (400 to 599, the statuses [raise_for_status]
    rejects), every operation raises the TransportError exception with
    that status after exactly one POST, and returns nothing. *)
Theorem transport_error_no_retry (post : request -> post_result)
    (self : client) (c : call) :
  (forall req, exists r, post req = PostResp r /\ 400 <= status_code r < 600) ->
  exists req r,
    post req = PostResp r /\
    perform post self c = ([EvPost req], Raise (HTTPError (status_code r))).
Proof.
  intros H.
  destruct c; cbn [perform];
    unfold LinearClient.get_teams, LinearClient.get_projects,
      LinearClient.get_workflow_states, LinearClient.create_issue,
      LinearClient.update_issue, LinearClient.get_issue,
      LinearClient.search_issues;
    http_error_case H.
Qed.

Lemma transport_error_no_retry_witness :
  exists req r,
    stub_reply 503 teams_body req = PostResp r /\
    perform (stub_reply 503 teams_body) demo_client
      (CreateIssue "T1" "Fix bug" None None None None None)
      = ([EvPost req], Raise (HTTPError (status_code r))).
Proof.
  apply (transport_error_no_retry (stub_reply 503 teams_body) demo_client
           (CreateIssue "T1" "Fix bug" None None None None None)).
  intros req. exists (mkResponse 503 (Some teams_body)).
  split; [reflexivity | simpl; lia].
Defined.

(** ** Event-free computations *)

Create HintDb silent.

Lemma silent_ret {A} (a : A) : silent (ret a).
Proof. reflexivity. Qed.

Lemma silent_raise {A} (e : exn) : silent (@raise A e).
Proof. reflexivity. Qed.

Lemma silent_bind {A B} (c : M A) (k : A -> M B) :
  silent c -> (forall a, silent (k a)) -> silent (c ≫= k).
Proof.
  unfold silent, trace. destruct c as [t [a|e]]; cbn; intros -> Hk.
  - specialize (Hk a). destruct (k a). cbn in *. by subst.
  - reflexivity.
Qed.

Lemma silent_if {A} (b : bool) (c1 c2 : M A) :
  silent c1 -> silent c2 -> silent (if b then c1 else c2).
Proof. by destruct b. Qed.

Lemma silent_getitem (v : json) (k : string) : silent (getitem v k).
Proof.
  destruct v; try reflexivity. unfold getitem.
  by destruct (m !! k).
Qed.

#[local] Hint Resolve silent_ret silent_raise silent_bind silent_if
  silent_getitem : silent.

(** Events of a computation followed by an event-free continuation. *)
Lemma trace_bind_silent {A B} (c : M A) (k : A -> M B) :
  (forall a, silent (k a)) -> trace (c ≫= k) = trace c.
Proof.
  unfold silent, trace. destruct c as [t [a|e]]; cbn; intros Hk.
  - specialize (Hk a). destruct (k a). cbn in *. subst. apply app_nil_r.
  - reflexivity.
Qed.

(** ** What each operation sends *)

Section Traces.

Variable post : request -> post_result.
Variable self : client.

Ltac one_post :=
  cbn zeta; rewrite trace_bind_silent by auto 10 with silent;
  rewrite query_trace, ?or_empty_Some; reflexivity.

Lemma get_teams_trace :
  trace (LinearClient.get_teams post self) =
    [EvPost (query_request self get_teams_query ∅)].
Proof. unfold LinearClient.get_teams. one_post. Qed.

Lemma get_projects_trace team_id :
  trace (LinearClient.get_projects post self team_id) =
    [EvPost (query_request self get_projects_query
               (<["teamId" := JStr team_id]> ∅))].
Proof. unfold LinearClient.get_projects. one_post. Qed.

Lemma get_workflow_states_trace team_id :
  trace (LinearClient.get_workflow_states post self team_id) =
    [EvPost (query_request self get_workflow_states_query
               (<["teamId" := JStr team_id]> ∅))].
Proof. unfold LinearClient.get_workflow_states. one_post. Qed.

Lemma create_issue_trace team_id title description priority project_id
    state_id labels :
  trace (LinearClient.create_issue post self team_id title description
           priority project_id state_id labels) =
    [EvPost (query_request self create_issue_mutation
               (LinearClient.create_issue_variables team_id title description
                  priority project_id state_id))].
Proof. unfold LinearClient.create_issue. one_post. Qed.

Lemma update_issue_trace issue_id state_id title description :
  trace (LinearClient.update_issue post self issue_id state_id title
           description) =
    [EvPost (query_request self update_issue_mutation
               (LinearClient.update_issue_variables issue_id state_id title
                  description))].
Proof. unfold LinearClient.update_issue. one_post. Qed.

Lemma get_issue_trace identifier :
  trace (LinearClient.get_issue post self identifier) =
    [EvPost (query_request self get_issue_query
               (<["identifier" := JStr identifier]> ∅))].
Proof. unfold LinearClient.get_issue. one_post. Qed.

Lemma search_issues_trace team_id query_text :
  trace (LinearClient.search_issues post self team_id query_text) =
    [EvPost (query_request self search_issues_query_str
               (<["teamId" := JStr team_id]>
                  (<["query" := JStr query_text]> ∅)))].
Proof. unfold LinearClient.search_issues. one_post. Qed.

End Traces.

(** ** Optional inputs and the variable mapping *)

(** C1 as stated fails: for create issue with only team id and title
    the variables also hold the "description" and "priority" keys, so they are not exactly the
    team-id and title keys. *)
Lemma required_only_variables_counterexample :
  exists req vars,
    trace (perform (stub_reply 200 teams_body) demo_client
             (CreateIssue "T1" "Fix bug" None None None None None))
      = [EvPost req] /\
    request_variables req = Some vars /\
    vars !! "description" = Some (JStr "") /\
    vars !! "priority" = Some (JInt 0) /\
    dom vars <> {["teamId"; "title"]}.
Proof.
  exists (query_request demo_client create_issue_mutation
            (LinearClient.create_issue_variables "T1" "Fix bug" "" 0 None None)),
    (LinearClient.create_issue_variables "T1" "Fix bug" "" 0 None None).
  split; [reflexivity|]. split; [reflexivity|].
  split; [reflexivity|]. split; [reflexivity|].
  intros Hdom.
  assert (Hin : "description" ∈ dom
            (LinearClient.create_issue_variables "T1" "Fix bug" "" 0 None None))
    by (apply elem_of_dom; eexists; reflexivity).
  rewrite Hdom in Hin. set_solver.
Qed.

Ltac non_null :=
  rewrite !lookup_insert; repeat case_decide; try discriminate;
  by rewrite lookup_empty.

(** C1, amended. For every operation called with only its required
    inputs, the variable mapping of the one request sent holds the
    required inputs together with the optional inputs whose signature
    default is a value, at that default (description "" and priority 0
    for create issue, query "" for search issues); it has no key for an
    optional input whose default is None, and none of its values is
    null. Update issue with only the issue id sends exactly the issueId
    key. *)
Theorem required_only_variables (post : request -> post_result)
    (self : client) (c : call) :
  only_required c = true ->
  exists req vars,
    trace (perform post self c) = [EvPost req] /\
    request_variables req = Some vars /\
    vars = required_variables c ∪ default_variables c /\
    (forall k, k ∈ omitted_keys c -> vars !! k = None) /\
    (forall k, vars !! k <> Some JNull).
Proof.
  intros Hreq.
  destruct c as [ | team_id | team_id
                | team_id title [?|] [?|] [?|] [?|] [?|]
                | issue_id [?|] [?|] [?|] | identifier | team_id [?|] ];
    try discriminate Hreq;
    cbn [perform default required_variables default_variables omitted_keys].
  - exists (query_request self get_teams_query ∅), ∅.
    split; [apply get_teams_trace|]. split; [reflexivity|].
    split; [by rewrite (left_id ∅ (∪))|].
    split; intros k; [set_solver | by rewrite lookup_empty].
  - exists (query_request self get_projects_query
              (<["teamId" := JStr team_id]> ∅)), (<["teamId" := JStr team_id]> ∅).
    split; [apply get_projects_trace|]. split; [reflexivity|].
    split; [by rewrite (right_id ∅ (∪))|].
    split; intros k; [set_solver | non_null].
  - exists (query_request self get_workflow_states_query
              (<["teamId" := JStr team_id]> ∅)), (<["teamId" := JStr team_id]> ∅).
    split; [apply get_workflow_states_trace|]. split; [reflexivity|].
    split; [by rewrite (right_id ∅ (∪))|].
    split; intros k; [set_solver | non_null].
  - exists (query_request self create_issue_mutation
              (LinearClient.create_issue_variables team_id title "" 0 None None)),
      (LinearClient.create_issue_variables team_id title "" 0 None None).
    split; [apply create_issue_trace|]. split; [reflexivity|].
    unfold LinearClient.create_issue_variables, set_if_truthy. cbn zeta.
    split; [by rewrite <- !insert_union_l, (left_id ∅ (∪))|].
    split; intros k; [|non_null].
    intros Hk. set_unfold in Hk. destruct Hk as [[-> | ->] | ->]; reflexivity.
  - exists (query_request self update_issue_mutation
              (LinearClient.update_issue_variables issue_id None None None)),
      (LinearClient.update_issue_variables issue_id None None None).
    split; [apply update_issue_trace|]. split; [reflexivity|].
    unfold LinearClient.update_issue_variables, set_if_truthy. cbn zeta.
    split; [by rewrite (right_id ∅ (∪))|].
    split; intros k; [|non_null].
    intros Hk. set_unfold in Hk. destruct Hk as [[-> | ->] | ->]; reflexivity.
  - exists (query_request self get_issue_query
              (<["identifier" := JStr identifier]> ∅)),
      (<["identifier" := JStr identifier]> ∅).
    split; [apply get_issue_trace|]. split; [reflexivity|].
    split; [by rewrite (right_id ∅ (∪))|].
    split; intros k; [set_solver | non_null].
  - exists (query_request self search_issues_query_str
              (<["teamId" := JStr team_id]> (<["query" := JStr ""]> ∅))),
      (<["teamId" := JStr team_id]> (<["query" := JStr ""]> ∅)).
    split; [apply search_issues_trace|]. split; [reflexivity|].
    split; [by rewrite <- !insert_union_l, (left_id ∅ (∪))|].
    split; intros k; [set_solver | non_null].
Qed.

Lemma required_only_variables_witness :
  exists req vars,
    trace (perform (stub_reply 200 teams_body) demo_client
             (UpdateIssue "ISSUE-1" None None None)) = [EvPost req] /\
    request_variables req = Some vars /\
    vars = <["issueId" := JStr "ISSUE-1"]> ∅ ∪ ∅ /\
    (forall k, k ∈ ({["stateId"; "title"; "description"]} : gset string) ->
       vars !! k = None) /\
    (forall k, vars !! k <> Some JNull).
Proof.
  apply (required_only_variables (stub_reply 200 teams_body) demo_client
           (UpdateIssue "ISSUE-1" None None None)).
  reflexivity.
Defined.

(** C3. Whatever label names the caller passes to create issue, the
    variable mapping of the request has no "labelIds" key, and the whole
    run (the request sent and the outcome) is the one obtained without
    labels: the names are never resolved and never transmitted. *)
Theorem create_issue_never_sends_labels (post : request -> post_result)
    (self : client) (team_id title description : string) (priority : Z)
    (project_id state_id : option string) (labels : option (list string)) :
  exists vars,
    trace (LinearClient.create_issue post self team_id title description
             priority project_id state_id labels)
      = [EvPost (query_request self create_issue_mutation vars)] /\
    request_variables (query_request self create_issue_mutation vars)
      = Some vars /\
    vars !! "labelIds" = None /\
    LinearClient.create_issue post self team_id title description priority
      project_id state_id labels
    = LinearClient.create_issue post self team_id title description priority
        project_id state_id None.
Proof.
  exists (LinearClient.create_issue_variables team_id title description
            priority project_id state_id).
  split; [apply create_issue_trace|]. split; [reflexivity|].
  split; [|reflexivity].
  unfold LinearClient.create_issue_variables, set_if_truthy. cbn zeta.
  destruct project_id as [p|], state_id as [s|]; cbn [truthy_str];
    repeat match goal with
           | |- context [String.eqb ?x ""] => destruct (String.eqb x "")
           end;
    reflexivity.
Qed.

(** C10. Omission is decided by truthiness: in update issue an empty
    string for state id, title or description gives the same variable
    mapping, and the same run, as leaving the field out; likewise for
    project id and state id in create issue. *)
Theorem empty_string_is_omitted (post : request -> post_result)
    (self : client) :
  (forall issue_id state_id title description,
     LinearClient.update_issue_variables issue_id (Some "") title description
       = LinearClient.update_issue_variables issue_id None title description /\
     LinearClient.update_issue_variables issue_id state_id (Some "") description
       = LinearClient.update_issue_variables issue_id state_id None description /\
     LinearClient.update_issue_variables issue_id state_id title (Some "")
       = LinearClient.update_issue_variables issue_id state_id title None /\
     LinearClient.update_issue post self issue_id (Some "") title description
       = LinearClient.update_issue post self issue_id None title description /\
     LinearClient.update_issue post self issue_id state_id (Some "") description
       = LinearClient.update_issue post self issue_id state_id None description /\
     LinearClient.update_issue post self issue_id state_id title (Some "")
       = LinearClient.update_issue post self issue_id state_id title None) /\
  (forall team_id title description priority project_id state_id labels,
     LinearClient.create_issue_variables team_id title description priority
       (Some "") state_id
       = LinearClient.create_issue_variables team_id title description priority
           None state_id /\
     LinearClient.create_issue_variables team_id title description priority
       project_id (Some "")
       = LinearClient.create_issue_variables team_id title description priority
           project_id None /\
     LinearClient.create_issue post self team_id title description priority
       (Some "") state_id labels
       = LinearClient.create_issue post self team_id title description priority
           None state_id labels /\
     LinearClient.create_issue post self team_id title description priority
       project_id (Some "") labels
       = LinearClient.create_issue post self team_id title description priority
           project_id None labels).
Proof.
  split; intros; repeat split; reflexivity.
Qed.

(** ** Mutation payloads *)

Section Mutations.

Variable post : request -> post_result.
Variable self : client.

Lemma query_success_vars document (vars : gmap string json) r body :
  post (query_request self document vars) = PostResp r ->
  status_ok r ->
  resp_json r = Some (JObj body) ->
  body !! "errors" = None ->
  LinearClient.query post self document (Some vars) =
    ([EvPost (query_request self document vars)],
     Ret (default JNull (body !! "data"))).
Proof.
  intros Hpost Hok Hjson Herr.
  pose proof (query_success post self document (Some vars) r body) as H.
  rewrite or_empty_Some in H. by apply H.
Qed.

(** [create_issue] on a decoded payload: the "success" flag decides
    between the exception and the "issue" entry. *)
Lemma create_issue_run team_id title description priority project_id state_id
    labels r body data payload success :
  post (query_request self create_issue_mutation
          (LinearClient.create_issue_variables team_id title description
             priority project_id state_id)) = PostResp r ->
  status_ok r ->
  resp_json r = Some (JObj body) ->
  body !! "errors" = None ->
  body !! "data" = Some (JObj data) ->
  data !! "issueCreate" = Some (JObj payload) ->
  payload !! "success" = Some success ->
  result (LinearClient.create_issue post self team_id title description
            priority project_id state_id labels) =
    if truthy success then
      match payload !! "issue" with
      | Some issue => Ret issue
      | None => Raise (KeyError "issue")
      end
    else Raise (Exception [FLit "Failed to create issue"]).
Proof.
  intros Hpost Hok Hjson Herr Hdata Hpayload Hsuccess.
  unfold LinearClient.create_issue. cbn zeta.
  rewrite (query_success_vars _ _ _ _ Hpost Hok Hjson Herr), Hdata.
  cbn. rewrite Hpayload. cbn. rewrite Hsuccess. cbn.
  destruct (truthy success); cbn; [|reflexivity].
  destruct (payload !! "issue"); reflexivity.
Qed.

Lemma update_issue_run issue_id state_id title description r body data
    payload success :
  post (query_request self update_issue_mutation
          (LinearClient.update_issue_variables issue_id state_id title
             description)) = PostResp r ->
  status_ok r ->
  resp_json r = Some (JObj body) ->
  body !! "errors" = None ->
  body !! "data" = Some (JObj data) ->
  data !! "issueUpdate" = Some (JObj payload) ->
  payload !! "success" = Some success ->
  result (LinearClient.update_issue post self issue_id state_id title
            description) =
    if truthy success then
      match payload !! "issue" with
      | Some issue => Ret issue
      | None => Raise (KeyError "issue")
      end
    else Raise (Exception [FLit "Failed to update issue"]).
Proof.
  intros Hpost Hok Hjson Herr Hdata Hpayload Hsuccess.
  unfold LinearClient.update_issue. cbn zeta.
  rewrite (query_success_vars _ _ _ _ Hpost Hok Hjson Herr), Hdata.
  cbn. rewrite Hpayload. cbn. rewrite Hsuccess. cbn.
  destruct (truthy success); cbn; [|reflexivity].
  destruct (payload !! "issue"); reflexivity.
Qed.

End Mutations.

(** C4. When a create-issue or update-issue call gets through the HTTP
    round-trip (passing status, decoded body without "errors") and the
    mutation payload reports success false, the call raises the
    OperationFailedError exception and returns no issue. *)
Theorem mutation_failure_raises (post : request -> post_result)
    (self : client) (r : response) (body data payload : gmap string json) :
  status_ok r ->
  resp_json r = Some (JObj body) ->
  body !! "errors" = None ->
  body !! "data" = Some (JObj data) ->
  payload !! "success" = Some (JBool false) ->
  (forall team_id title description priority project_id state_id labels,
     post (query_request self create_issue_mutation
             (LinearClient.create_issue_variables team_id title description
                priority project_id state_id)) = PostResp r ->
     data !! "issueCreate" = Some (JObj payload) ->
     result (LinearClient.create_issue post self team_id title description
               priority project_id state_id labels)
       = Raise (Exception [FLit "Failed to create issue"]) /\
     OperationFailedError (Exception [FLit "Failed to create issue"])) /\
  (forall issue_id state_id title description,
     post (query_request self update_issue_mutation
             (LinearClient.update_issue_variables issue_id state_id title
                description)) = PostResp r ->
     data !! "issueUpdate" = Some (JObj payload) ->
     result (LinearClient.update_issue post self issue_id state_id title
               description)
       = Raise (Exception [FLit "Failed to update issue"]) /\
     OperationFailedError (Exception [FLit "Failed to update issue"])).
Proof.
  intros Hok Hjson Herr Hdata Hsuccess. split.
  - intros team_id title description priority project_id state_id labels
      Hpost Hpayload.
    split; [|by left].
    by rewrite (create_issue_run post self _ _ _ _ _ _ labels _ _ _ _ _
                  Hpost Hok Hjson Herr Hdata Hpayload Hsuccess).
  - intros issue_id state_id title description Hpost Hpayload.
    split; [|by right].
    by rewrite (update_issue_run post self _ _ _ _ _ _ _ _ _
                  Hpost Hok Hjson Herr Hdata Hpayload Hsuccess).
Qed.

Lemma mutation_failure_raises_witness :
  result (LinearClient.create_issue
            (stub_reply 200 (JObj create_failed_fields)) demo_client
            "T1" "Fix bug" "" 0 None None None)
    = Raise (Exception [FLit "Failed to create issue"]) /\
  result (LinearClient.update_issue
            (stub_reply 200 (JObj update_failed_fields)) demo_client
            "ISSUE-1" (Some "state-done") None None)
    = Raise (Exception [FLit "Failed to update issue"]).
Proof.
  assert (Hok : forall body, status_ok (mkResponse 200 (Some body)))
    by (intros body; unfold status_ok; simpl; lia).
  split.
  - refine (proj1 (proj1 (mutation_failure_raises
                     (stub_reply 200 (JObj create_failed_fields)) demo_client
                     (mkResponse 200 (Some (JObj create_failed_fields)))
                     create_failed_fields create_failed_data failed_payload
                     (Hok _) eq_refl eq_refl eq_refl eq_refl)
                    "T1" "Fix bug" "" 0 None None None eq_refl eq_refl)).
  - refine (proj1 (proj2 (mutation_failure_raises
                     (stub_reply 200 (JObj update_failed_fields)) demo_client
                     (mkResponse 200 (Some (JObj update_failed_fields)))
                     update_failed_fields update_failed_data failed_payload
                     (Hok _) eq_refl eq_refl eq_refl eq_refl)
                    "ISSUE-1" (Some "state-done") None None eq_refl eq_refl)).
Defined.

(** C6. Round trip: when the transport answers the create-issue request
    with a well-formed [issueCreate] success payload (success true and
    an embedded issue), create issue returns exactly that issue object,
    so each of its fields, identifier, title and url among them, is the
    stub's. *)
Theorem create_issue_round_trip (post : request -> post_result)
    (self : client) (team_id title description : string) (priority : Z)
    (project_id state_id : option string) (labels : option (list string))
    (r : response) (body data payload : gmap string json) (issue : json) :
  post (query_request self create_issue_mutation
          (LinearClient.create_issue_variables team_id title description
             priority project_id state_id)) = PostResp r ->
  200 <= status_code r < 300 ->
  resp_json r = Some (JObj body) ->
  body !! "errors" = None ->
  body !! "data" = Some (JObj data) ->
  data !! "issueCreate" = Some (JObj payload) ->
  payload !! "success" = Some (JBool true) ->
  payload !! "issue" = Some issue ->
  result (LinearClient.create_issue post self team_id title description
            priority project_id state_id labels) = Ret issue /\
  (forall field,
     field ∈ ["identifier"; "title"; "url"] ->
     exists returned,
       result (LinearClient.create_issue post self team_id title description
                 priority project_id state_id labels) = Ret returned /\
       getitem returned field = getitem issue field).
Proof.
  intros Hpost Hstatus Hjson Herr Hdata Hpayload Hsuccess Hissue.
  assert (Hok : status_ok r) by (unfold status_ok; lia).
  rewrite (create_issue_run post self _ _ _ _ _ _ labels _ _ _ _ _
             Hpost Hok Hjson Herr Hdata Hpayload Hsuccess).
  cbn [truthy]. rewrite Hissue. split; [reflexivity|].
  intros field _. by exists issue.
Qed.

Lemma create_issue_round_trip_witness :
  result (LinearClient.create_issue echo_create_stub demo_client
            "T1" "Fix bug" "" 0 None None None)
    = Ret (JObj (<["id" := JStr "6f1c2f0e"]>
                  (<["identifier" := JStr "T1-7"]>
                    (<["title" := JStr "Fix bug"]>
                      (<["url" := JStr "https://linear.app/t1/issue/T1-7"]> ∅))))).
Proof.
  pose (req := query_request demo_client create_issue_mutation
                 (LinearClient.create_issue_variables "T1" "Fix bug" "" 0
                    None None)).
  refine (proj1 (create_issue_round_trip echo_create_stub demo_client
                   "T1" "Fix bug" "" 0 None None None
                   (mkResponse 200 (Some (JObj (echo_fields req))))
                   (echo_fields req) (echo_data req) (echo_payload req) _
                   eq_refl _ eq_refl eq_refl eq_refl eq_refl eq_refl eq_refl)).
  simpl; lia.
Defined.

(** ** The command-line entry point *)

Section Main.

Variable post : request -> post_result.

Lemma truthy_str_Some (key : string) :
  key <> "" -> negb (truthy_str (Some key)) = false.
Proof.
  intros Hkey. cbn. apply negb_false_iff, negb_true_iff.
  by apply String.eqb_neq.
Qed.

(** A command that is none of the three known ones. *)
Lemma main_unknown_command prog command rest environ key :
  environ !! "LINEAR_API_KEY" = Some key ->
  key <> "" ->
  command <> "teams" -> command <> "projects" -> command <> "create" ->
  main post (prog :: command :: rest) environ
    = ([EvInit key; EvPrint [FLit "Unknown command: "; FVal (JStr command)]],
       Raise (SystemExit 1)).
Proof.
  intros Henv Hkey H1 H2 H3.
  apply String.eqb_neq in H1, H2, H3.
  unfold main. rewrite Henv, (truthy_str_Some _ Hkey).
  cbn -[String.eqb]. rewrite H1, H2, H3. reflexivity.
Qed.

(** [create] with fewer than two further arguments. *)
Lemma main_create_too_few prog rest environ key :
  environ !! "LINEAR_API_KEY" = Some key ->
  key <> "" ->
  (length rest < 2)%nat ->
  main post (prog :: "create" :: rest) environ
    = ([EvInit key;
        EvPrint [FLit "Usage: python linear_sync.py create <team_id> <title>"]],
       Raise (SystemExit 1)).
Proof.
  intros Henv Hkey Hlen.
  destruct rest as [|x [|y rest]]; [| |simpl in Hlen; lia];
    unfold main; rewrite Henv, (truthy_str_Some _ Hkey); reflexivity.
Qed.

(** [projects] without a team id. *)
Lemma main_projects_too_few prog environ key :
  environ !! "LINEAR_API_KEY" = Some key ->
  key <> "" ->
  main post [prog; "projects"] environ
    = ([EvInit key;
        EvPrint [FLit "Usage: python linear_sync.py projects <team_id>"]],
       Raise (SystemExit 1)).
Proof.
  intros Henv Hkey.
  unfold main; rewrite Henv, (truthy_str_Some _ Hkey); reflexivity.
Qed.

(** No command at all: the environment is not even read. *)
Lemma main_no_command argv environ :
  (length argv < 2)%nat ->
  main post argv environ = (EvPrint <$> usage_lines, Raise (SystemExit 1)).
Proof.
  intros Hlen.
  destruct argv as [|prog [|command rest]]; [| |simpl in Hlen; lia];
    reflexivity.
Qed.

End Main.

(** C7. When [main] runs with at least one argument and the credential
    variable is unset or empty, it prints the message about the missing
    variable and exits with status 1; no client object has been
    constructed and no request has been sent. *)
Theorem main_missing_credential (post : request -> post_result)
    (argv : list string) (environ : gmap string string) :
  (2 <= length argv)%nat ->
  environ !! "LINEAR_API_KEY" = None \/ environ !! "LINEAR_API_KEY" = Some "" ->
  main post argv environ
    = ([EvPrint [FLit "Error: LINEAR_API_KEY environment variable not set"]],
       Raise (SystemExit 1)) /\
  constructed (trace (main post argv environ)) = [] /\
  posted (trace (main post argv environ)) = [].
Proof.
  intros Hlen Henv.
  assert (Hmain : main post argv environ
    = ([EvPrint [FLit "Error: LINEAR_API_KEY environment variable not set"]],
       Raise (SystemExit 1))).
  { destruct argv as [|prog [|command rest]]; [simpl in Hlen; lia ..|].
    unfold main. destruct Henv as [-> | ->]; reflexivity. }
  rewrite Hmain. repeat split.
Qed.

Lemma main_missing_credential_witness :
  main (stub_reply 200 teams_body) ["linear_sync.py"; "teams"] ∅
    = ([EvPrint [FLit "Error: LINEAR_API_KEY environment variable not set"]],
       Raise (SystemExit 1)) /\
  constructed (trace (main (stub_reply 200 teams_body)
                        ["linear_sync.py"; "teams"] ∅)) = [] /\
  posted (trace (main (stub_reply 200 teams_body)
                   ["linear_sync.py"; "teams"] ∅)) = [].
Proof.
  apply (main_missing_credential (stub_reply 200 teams_body)
           ["linear_sync.py"; "teams"] ∅).
  - simpl; lia.
  - left; reflexivity.
Defined.

(** C8 as stated fails: an unknown command, with the credential set,
    prints no usage string, and [create] with two arguments prints none
    either when the credential is unset. *)
Lemma main_usage_counterexample :
  existsb is_usage
    (printed (trace (main (stub_reply 200 teams_body)
                       ["linear_sync.py"; "bogus"] demo_environ))) = false /\
  existsb is_usage
    (printed (trace (main (stub_reply 200 teams_body)
                       ["linear_sync.py"; "create"; "T1"] ∅))) = false.
Proof. split; reflexivity. Qed.

(** C8, amended. With the credential set, [create] with fewer than
    three arguments prints the create usage string and exits with
    status 1, and [projects] without a team id prints the projects
    usage string and exits with status 1; a command other than teams,
    projects and create prints "Unknown command: <command>", which is
    not a usage string, and exits with status 1. With no argument at
    all, whatever the environment, [main] prints the general usage text
    and exits with status 1. None of these runs sends a request. *)
Theorem main_bad_arguments (post : request -> post_result)
    (argv : list string) (environ : gmap string string) :
  ((length argv < 2)%nat ->
   exits_with (main post argv environ) (EvPrint <$> usage_lines) true) /\
  (forall key,
     environ !! "LINEAR_API_KEY" = Some key ->
     key <> "" ->
     (forall prog rest,
        argv = prog :: "create" :: rest ->
        (length rest < 2)%nat ->
        exits_with (main post argv environ)
          [EvInit key;
           EvPrint
             [FLit "Usage: python linear_sync.py create <team_id> <title>"]]
          true) /\
     (forall prog,
        argv = [prog; "projects"] ->
        exits_with (main post argv environ)
          [EvInit key;
           EvPrint [FLit "Usage: python linear_sync.py projects <team_id>"]]
          true) /\
     (forall prog command rest,
        argv = prog :: command :: rest ->
        command <> "teams" -> command <> "projects" -> command <> "create" ->
        exits_with (main post argv environ)
          [EvInit key;
           EvPrint [FLit "Unknown command: "; FVal (JStr command)]]
          false)).
Proof.
  split.
  - intros Hlen. split; [by apply main_no_command | by split].
  - intros key Henv Hkey. split; [|split].
    + intros prog rest -> Hlen. split; [by apply main_create_too_few | by split].
    + intros prog ->. split; [by apply main_projects_too_few | by split].
    + intros prog command rest -> H1 H2 H3.
      split; [by apply main_unknown_command | by split].
Qed.

Lemma main_bad_arguments_witness :
  exits_with (main (stub_reply 200 teams_body) ["linear_sync.py"] ∅)
    (EvPrint <$> usage_lines) true /\
  exits_with
    (main (stub_reply 200 teams_body) ["linear_sync.py"; "create"; "T1"]
       demo_environ)
    [EvInit "lin_api_test";
     EvPrint [FLit "Usage: python linear_sync.py create <team_id> <title>"]]
    true /\
  exits_with
    (main (stub_reply 200 teams_body) ["linear_sync.py"; "projects"]
       demo_environ)
    [EvInit "lin_api_test";
     EvPrint [FLit "Usage: python linear_sync.py projects <team_id>"]]
    true /\
  exits_with
    (main (stub_reply 200 teams_body) ["linear_sync.py"; "bogus"]
       demo_environ)
    [EvInit "lin_api_test";
     EvPrint [FLit "Unknown command: "; FVal (JStr "bogus")]]
    false.
Proof.
  split; [|split; [|split]].
  - apply (proj1 (main_bad_arguments (stub_reply 200 teams_body)
                    ["linear_sync.py"] ∅)).
    simpl; lia.
  - refine (proj1 (proj2 (main_bad_arguments (stub_reply 200 teams_body)
                            ["linear_sync.py"; "create"; "T1"] demo_environ)
                     "lin_api_test" eq_refl _)
              "linear_sync.py" ["T1"] eq_refl _);
      [discriminate | simpl; lia].
  - refine (proj1 (proj2 (proj2 (main_bad_arguments (stub_reply 200 teams_body)
                            ["linear_sync.py"; "projects"] demo_environ)
                     "lin_api_test" eq_refl _))
              "linear_sync.py" eq_refl).
    discriminate.
  - refine (proj2 (proj2 (proj2 (main_bad_arguments (stub_reply 200 teams_body)
                            ["linear_sync.py"; "bogus"] demo_environ)
                     "lin_api_test" eq_refl _))
              "linear_sync.py" "bogus" [] eq_refl _ _ _);
      discriminate.
Defined.

(** * Further properties of the client *)

(** ** One request per call *)

Lemma perform_one_request_aux (post : request -> post_result) (self : client)
    (c : call) :
  exists vars,
    trace (perform post self c)
      = [EvPost (query_request self (document c) vars)].
Proof.
  destruct c; cbn [perform document]; eexists.
  - apply get_teams_trace.
  - apply get_projects_trace.
  - apply get_workflow_states_trace.
  - apply create_issue_trace.
  - apply update_issue_trace.
  - apply get_issue_trace.
  - apply search_issues_trace.
Qed.

(** X1. Whatever the transport answers, every operation issues exactly
    one POST and no other event: the request goes to the client's
    endpoint with the client's headers, its document is the fixed
    literal of the operation, and the caller's inputs travel only in
    the variables, which are always a JSON object. *)
Theorem perform_one_request (post : request -> post_result) (self : client)
    (c : call) :
  exists vars,
    trace (perform post self c)
      = [EvPost (mkRequest (endpoint self) (headers self)
                   (<["query" := JStr (document c)]>
                      (<["variables" := JObj vars]> ∅)))].
Proof. apply perform_one_request_aux. Qed.

(** X2. [LinearClient(key)] touches no network, and every operation of
    the client it builds posts to the fixed Linear endpoint with
    exactly two headers: the key itself, without any scheme prefix,
    under Authorization, and application/json under Content-Type. *)
Theorem constructed_client_requests (key : string) :
  exists self,
    LinearClient.init key = ([EvInit key], Ret self) /\
    forall post c,
      exists req,
        trace (perform post self c) = [EvPost req] /\
        req_url req = "https://api.linear.app/graphql" /\
        req_headers req !! "Authorization" = Some key /\
        req_headers req !! "Content-Type" = Some "application/json" /\
        dom (req_headers req) = {["Authorization"; "Content-Type"]}.
Proof.
  eexists. split; [reflexivity|].
  intros post c.
  destruct (perform_one_request_aux post
              {| api_key := key;
                 endpoint := "https://api.linear.app/graphql";
                 headers := <["Authorization" := key]>
                              (<["Content-Type" := "application/json"]> ∅) |}
              c) as [vars ->].
  eexists. split; [reflexivity|].
  unfold query_request. cbn [req_url req_headers endpoint headers].
  split; [reflexivity|]. split; [reflexivity|]. split; [reflexivity|].
  rewrite !dom_insert_L, dom_empty_L. set_solver.
Qed.

(** X3. The body [query] posts has exactly the keys "query" and
    "variables", and "variables" is always an object: the mapping the
    caller gave, or the empty object when none was given. Passing no
    variables and passing an empty dict are the same run. *)
Theorem query_variables_always_object (post : request -> post_result)
    (self : client) (document : string)
    (variables : option (gmap string json)) :
  trace (LinearClient.query post self document variables)
    = [EvPost (query_request self document (default ∅ variables))] /\
  req_json (query_request self document (default ∅ variables)) !! "variables"
    = Some (JObj (default ∅ variables)) /\
  dom (req_json (query_request self document (default ∅ variables)))
    = {["query"; "variables"]} /\
  LinearClient.query post self document None
    = LinearClient.query post self document (Some ∅).
Proof.
  assert (Hor : or_empty variables = default ∅ variables)
    by (destruct variables; [apply or_empty_Some | reflexivity]).
  split; [by rewrite query_trace, Hor|].
  split; [reflexivity|]. split; [|reflexivity].
  unfold query_request. cbn [req_json].
  rewrite !dom_insert_L, dom_empty_L. set_solver.
Qed.

(** ** How failures of the exchange surface *)

Section Failures.

Variable post : request -> post_result.
Variable self : client.

Lemma query_post_raise document variables e :
  post (query_request self document (or_empty variables)) = PostRaise e ->
  LinearClient.query post self document variables =
    ([EvPost (query_request self document (or_empty variables))], Raise e).
Proof. intros Hpost. rewrite query_unfold. cbn zeta. by rewrite Hpost. Qed.

Lemma query_not_json document variables r :
  post (query_request self document (or_empty variables)) = PostResp r ->
  status_ok r ->
  resp_json r = None ->
  LinearClient.query post self document variables =
    ([EvPost (query_request self document (or_empty variables))],
     Raise JSONDecodeError).
Proof.
  intros Hpost Hok Hjson. rewrite query_unfold. cbn zeta.
  by rewrite Hpost, (status_ok_test _ Hok), Hjson.
Qed.

Lemma status_test_ok (r : response) :
  (400 <=? status_code r) && (status_code r <? 600) = false -> status_ok r.
Proof. unfold status_ok. intros H. apply andb_false_iff in H. lia. Qed.

End Failures.

(** Unfolds the operation under [perform] and names the one [query]
    call it makes. *)
Ltac operation_cases c :=
  destruct c; cbn [perform document first_key];
  unfold LinearClient.get_teams, LinearClient.get_projects,
    LinearClient.get_workflow_states, LinearClient.create_issue,
    LinearClient.update_issue, LinearClient.get_issue,
    LinearClient.search_issues;
  cbn zeta.

(** X4. If [requests.post] itself raises, every operation lets that
    exception through unchanged after its single attempt: nothing is
    caught, retried or wrapped. *)
Theorem transport_exception_propagates (post : request -> post_result)
    (self : client) (c : call) (e : exn) :
  (forall req, post req = PostRaise e) ->
  exists req, perform post self c = ([EvPost req], Raise e).
Proof.
  intros H. operation_cases c;
    match goal with
    | |- context [LinearClient.query post self ?d ?v] =>
        rewrite (query_post_raise post self d v e (H _))
    end; eexists; reflexivity.
Qed.

Lemma transport_exception_propagates_witness :
  exists req,
    perform (fun _ => PostRaise RequestException) demo_client
      (GetIssue "PROJ-123") = ([EvPost req], Raise RequestException).
Proof.
  apply (transport_exception_propagates (fun _ => PostRaise RequestException)
           demo_client (GetIssue "PROJ-123") RequestException).
  intros req. reflexivity.
Defined.

(** X5. A passing status with a body that is not JSON makes every
    operation raise the decoder's error, after one POST. *)
Theorem undecodable_body_raises (post : request -> post_result)
    (self : client) (c : call) (r : response) :
  (forall req, post req = PostResp r) ->
  status_ok r ->
  resp_json r = None ->
  exists req, perform post self c = ([EvPost req], Raise JSONDecodeError).
Proof.
  intros H Hok Hjson. operation_cases c;
    match goal with
    | |- context [LinearClient.query post self ?d ?v] =>
        rewrite (query_not_json post self d v r (H _) Hok Hjson)
    end; eexists; reflexivity.
Qed.

Lemma undecodable_body_raises_witness :
  exists req,
    perform (fun _ => PostResp (mkResponse 200 None)) demo_client GetTeams
      = ([EvPost req], Raise JSONDecodeError).
Proof.
  apply (undecodable_body_raises (fun _ => PostResp (mkResponse 200 None))
           demo_client GetTeams (mkResponse 200 None)).
  - intros req. reflexivity.
  - unfold status_ok. simpl. lia.
  - reflexivity.
Defined.

(** X6. The test is on the presence of the "errors" key, not on its
    content: with a passing status, any value under "errors" (an empty
    list and null included) makes every operation raise the
    "GraphQL Error" exception embedding that value, whatever "data"
    holds. *)
Theorem errors_key_raises_in_every_operation (post : request -> post_result)
    (self : client) (c : call) (r : response) (body : gmap string json)
    (errors : json) :
  (forall req, post req = PostResp r) ->
  status_ok r ->
  resp_json r = Some (JObj body) ->
  body !! "errors" = Some errors ->
  exists req,
    perform post self c
      = ([EvPost req], Raise (Exception [FLit "GraphQL Error: "; FVal errors])).
Proof.
  intros H Hok Hjson Herr. operation_cases c;
    match goal with
    | |- context [LinearClient.query post self ?d ?v] =>
        rewrite (query_graphql_error post self d v r body errors
                   (H _) Hok Hjson Herr)
    end; eexists; reflexivity.
Qed.

Lemma errors_key_raises_in_every_operation_witness :
  exists req,
    perform (stub_reply 200 (JObj (<["errors" := JArr []]> teams_fields)))
      demo_client GetTeams
      = ([EvPost req],
         Raise (Exception [FLit "GraphQL Error: "; FVal (JArr [])])).
Proof.
  apply (errors_key_raises_in_every_operation
           (stub_reply 200 (JObj (<["errors" := JArr []]> teams_fields)))
           demo_client GetTeams
           (mkResponse 200 (Some (JObj (<["errors" := JArr []]> teams_fields))))
           (<["errors" := JArr []]> teams_fields) (JArr [])).
  - intros req. reflexivity.
  - unfold status_ok. simpl. lia.
  - reflexivity.
  - reflexivity.
Defined.

(** ** When [query] returns *)

(** X7. [query] returns a value exactly when the transport answered,
    the status passed [raise_for_status], and the body decoded to an
    object without an "errors" key; the value is then the one under
    "data", or None. In every other case it raises. *)
Theorem query_returns_iff (post : request -> post_result) (self : client)
    (document : string) (variables : option (gmap string json)) (x : json) :
  result (LinearClient.query post self document variables) = Ret x <->
  exists r body,
    post (query_request self document (or_empty variables)) = PostResp r /\
    status_ok r /\
    resp_json r = Some (JObj body) /\
    body !! "errors" = None /\
    x = default JNull (body !! "data").
Proof.
  split.
  - rewrite query_unfold. cbn zeta. unfold result. cbn [snd].
    destruct (post _) as [e|r]; [discriminate|].
    destruct ((400 <=? status_code r) && (status_code r <? 600)) eqn:Hst;
      [discriminate|].
    destruct (resp_json r) as [data|] eqn:Hjson; [|discriminate].
    destruct data as [| | | | s | l | body]; cbn; try discriminate.
    + destruct (str_contains "errors" s); discriminate.
    + destruct (existsb _ l); discriminate.
    + destruct (body !! "errors") eqn:Herr; [discriminate|].
      intros [= <-]. exists r, body.
      by repeat split; [apply status_test_ok|..].
  - intros (r & body & Hpost & Hok & Hjson & Herr & ->).
    by rewrite (query_success post self _ _ _ _ Hpost Hok Hjson Herr).
Qed.

Lemma query_returns_iff_witness :
  result (LinearClient.query (stub_reply 200 (JObj ∅)) demo_client
            get_teams_query None) = Ret JNull.
Proof.
  apply (proj2 (query_returns_iff (stub_reply 200 (JObj ∅)) demo_client
                  get_teams_query None JNull)).
  exists (mkResponse 200 (Some (JObj ∅))), ∅.
  split; [reflexivity|]. split; [unfold status_ok; simpl; lia|].
  split; [reflexivity|]. split; reflexivity.
Defined.

(** ** Responses of an unexpected shape *)

(** X8. A well-received body with neither "errors" nor a usable "data"
    (the key is absent, or null) makes every operation raise TypeError:
    [query] returns None and the operation subscripts it. *)
Theorem missing_data_raises_type_error (post : request -> post_result)
    (self : client) (c : call) (r : response) (body : gmap string json) :
  (forall req, post req = PostResp r) ->
  status_ok r ->
  resp_json r = Some (JObj body) ->
  body !! "errors" = None ->
  body !! "data" = None \/ body !! "data" = Some JNull ->
  exists req, perform post self c = ([EvPost req], Raise TypeError).
Proof.
  intros H Hok Hjson Herr Hdata. operation_cases c;
    match goal with
    | |- context [LinearClient.query post self ?d ?v] =>
        rewrite (query_success post self d v r body (H _) Hok Hjson Herr)
    end; destruct Hdata as [-> | ->]; eexists; reflexivity.
Qed.

Lemma missing_data_raises_type_error_witness :
  exists req,
    perform (stub_reply 200 (JObj ∅)) demo_client
      (SearchIssues "T1" (Some "crash")) = ([EvPost req], Raise TypeError).
Proof.
  apply (missing_data_raises_type_error (stub_reply 200 (JObj ∅)) demo_client
           (SearchIssues "T1" (Some "crash")) (mkResponse 200 (Some (JObj ∅)))
           ∅).
  - intros req. reflexivity.
  - unfold status_ok. simpl. lia.
  - reflexivity.
  - reflexivity.
  - left. reflexivity.
Defined.

(** X9. When "data" is an object that lacks the field the operation
    reads first ("teams", "team", "issueCreate", "issueUpdate" or
    "issue"), the operation raises KeyError for that field; no
    distinguished error kind is used. *)
Theorem missing_field_raises_key_error (post : request -> post_result)
    (self : client) (c : call) (r : response)
    (body data : gmap string json) :
  (forall req, post req = PostResp r) ->
  status_ok r ->
  resp_json r = Some (JObj body) ->
  body !! "errors" = None ->
  body !! "data" = Some (JObj data) ->
  data !! first_key c = None ->
  exists req, perform post self c = ([EvPost req], Raise (KeyError (first_key c))).
Proof.
  intros H Hok Hjson Herr Hdata Hkey. revert Hkey. operation_cases c;
    intros Hkey;
    match goal with
    | |- context [LinearClient.query post self ?d ?v] =>
        rewrite (query_success post self d v r body (H _) Hok Hjson Herr)
    end; rewrite Hdata; cbn; rewrite Hkey; eexists; reflexivity.
Qed.

Lemma missing_field_raises_key_error_witness :
  exists req,
    perform (stub_reply 200 teams_body) demo_client (GetIssue "PROJ-123")
      = ([EvPost req], Raise (KeyError "issue")).
Proof.
  apply (missing_field_raises_key_error (stub_reply 200 teams_body) demo_client
           (GetIssue "PROJ-123") (mkResponse 200 (Some teams_body))
           teams_fields
           (<["teams" := JObj (<["nodes" := JArr []]> ∅)]> ∅)).
  - intros req. reflexivity.
  - unfold status_ok. simpl. lia.
  - reflexivity.
  - reflexivity.
  - reflexivity.
  - reflexivity.
Defined.

(** ** What the read operations return *)

(** X10. On a well-received body the five read operations return the
    designated part of "data" as it came: list teams the value at
    teams.nodes, list projects, list workflow states and search issues
    the values at team.projects.nodes, team.states.nodes and
    team.issues.nodes, get issue the value at issue. The value is not
    inspected, so it need not be a list or an issue. *)
Theorem read_operations_return_subobject (post : request -> post_result)
    (self : client) (r : response) (body data : gmap string json) :
  (forall req, post req = PostResp r) ->
  status_ok r ->
  resp_json r = Some (JObj body) ->
  body !! "errors" = None ->
  body !! "data" = Some (JObj data) ->
  (forall teams nodes,
     data !! "teams" = Some (JObj teams) ->
     teams !! "nodes" = Some nodes ->
     result (LinearClient.get_teams post self) = Ret nodes) /\
  (forall team sub nodes,
     data !! "team" = Some (JObj team) ->
     sub !! "nodes" = Some nodes ->
     (team !! "projects" = Some (JObj sub) ->
      forall team_id,
        result (LinearClient.get_projects post self team_id) = Ret nodes) /\
     (team !! "states" = Some (JObj sub) ->
      forall team_id,
        result (LinearClient.get_workflow_states post self team_id)
          = Ret nodes) /\
     (team !! "issues" = Some (JObj sub) ->
      forall team_id query_text,
        result (LinearClient.search_issues post self team_id query_text)
          = Ret nodes)) /\
  (forall issue identifier,
     data !! "issue" = Some issue ->
     result (LinearClient.get_issue post self identifier) = Ret issue).
Proof.
  intros H Hok Hjson Herr Hdata.
  assert (Hq : forall d v,
             LinearClient.query post self d v
               = ([EvPost (query_request self d (or_empty v))],
                  Ret (JObj data))).
  { intros d v.
    by rewrite (query_success post self d v r body (H _) Hok Hjson Herr),
      Hdata. }
  split; [|split].
  - intros teams nodes Hteams Hnodes.
    unfold LinearClient.get_teams. rewrite Hq. cbn.
    rewrite Hteams. cbn. by rewrite Hnodes.
  - intros team sub nodes Hteam Hnodes. split; [|split]; intros Hsub **.
    + unfold LinearClient.get_projects. rewrite Hq. cbn.
      rewrite Hteam. cbn. rewrite Hsub. cbn. by rewrite Hnodes.
    + unfold LinearClient.get_workflow_states. rewrite Hq. cbn.
      rewrite Hteam. cbn. rewrite Hsub. cbn. by rewrite Hnodes.
    + unfold LinearClient.search_issues. rewrite Hq. cbn.
      rewrite Hteam. cbn. rewrite Hsub. cbn. by rewrite Hnodes.
  - intros issue identifier Hissue.
    unfold LinearClient.get_issue. rewrite Hq. cbn. by rewrite Hissue.
Qed.

Lemma read_operations_return_subobject_witness :
  result (LinearClient.get_teams (stub_reply 200 teams_body) demo_client)
    = Ret (JArr []).
Proof.
  refine (proj1 (read_operations_return_subobject
                   (stub_reply 200 teams_body) demo_client
                   (mkResponse 200 (Some teams_body)) teams_fields
                   (<["teams" := JObj (<["nodes" := JArr []]> ∅)]> ∅)
                   (fun _ => eq_refl) _ eq_refl eq_refl eq_refl)
            (<["nodes" := JArr []]> ∅) (JArr []) eq_refl eq_refl).
  unfold status_ok. simpl. lia.
Defined.

(** ** What the mutations make of the payload *)

(** X11. The "success" entry is judged by truthiness, for create issue
    and update issue alike: any false-like value (false, null, 0, an
    empty string, list or object) raises the failure exception, and any
    other value makes the call return the payload's "issue" entry
    unchanged, so update issue round-trips the issue as create issue
    does. *)
Theorem mutation_success_by_truthiness (post : request -> post_result)
    (self : client) (r : response) (body data payload : gmap string json)
    (success : json) :
  (forall req, post req = PostResp r) ->
  status_ok r ->
  resp_json r = Some (JObj body) ->
  body !! "errors" = None ->
  body !! "data" = Some (JObj data) ->
  payload !! "success" = Some success ->
  (data !! "issueCreate" = Some (JObj payload) ->
   forall team_id title description priority project_id state_id labels,
     (truthy success = false ->
      result (LinearClient.create_issue post self team_id title description
                priority project_id state_id labels)
        = Raise (Exception [FLit "Failed to create issue"])) /\
     (truthy success = true ->
      forall issue,
        payload !! "issue" = Some issue ->
        result (LinearClient.create_issue post self team_id title description
                  priority project_id state_id labels) = Ret issue)) /\
  (data !! "issueUpdate" = Some (JObj payload) ->
   forall issue_id state_id title description,
     (truthy success = false ->
      result (LinearClient.update_issue post self issue_id state_id title
                description)
        = Raise (Exception [FLit "Failed to update issue"])) /\
     (truthy success = true ->
      forall issue,
        payload !! "issue" = Some issue ->
        result (LinearClient.update_issue post self issue_id state_id title
                  description) = Ret issue)).
Proof.
  intros H Hok Hjson Herr Hdata Hsuccess. split.
  - intros Hpayload team_id title description priority project_id state_id
      labels.
    rewrite (create_issue_run post self _ _ _ _ _ _ labels _ _ _ _ _
               (H _) Hok Hjson Herr Hdata Hpayload Hsuccess).
    split; [by intros -> | intros -> issue ->; reflexivity].
  - intros Hpayload issue_id state_id title description.
    rewrite (update_issue_run post self _ _ _ _ _ _ _ _ _
               (H _) Hok Hjson Herr Hdata Hpayload Hsuccess).
    split; [by intros -> | intros -> issue ->; reflexivity].
Qed.

Lemma mutation_success_by_truthiness_witness :
  result (LinearClient.create_issue (stub_reply 200 (JObj null_success_fields))
            demo_client "T1" "Fix bug" "" 0 None None None)
    = Raise (Exception [FLit "Failed to create issue"]) /\
  result (LinearClient.update_issue (stub_reply 200 (JObj update_ok_fields))
            demo_client "6f1c2f0e" None (Some "Renamed") None)
    = Ret updated_issue.
Proof.
  assert (Hok : forall b, status_ok (mkResponse 200 (Some b)))
    by (intros b; unfold status_ok; simpl; lia).
  split.
  - refine (proj1 (proj1 (mutation_success_by_truthiness
                     (stub_reply 200 (JObj null_success_fields)) demo_client
                     (mkResponse 200 (Some (JObj null_success_fields)))
                     null_success_fields null_success_data
                     null_success_payload JNull
                     (fun _ => eq_refl) (Hok _) eq_refl eq_refl eq_refl eq_refl)
                    eq_refl "T1" "Fix bug" "" 0 None None None) eq_refl).
  - refine (proj2 (proj2 (mutation_success_by_truthiness
                     (stub_reply 200 (JObj update_ok_fields)) demo_client
                     (mkResponse 200 (Some (JObj update_ok_fields)))
                     update_ok_fields update_ok_data update_ok_payload (JInt 1)
                     (fun _ => eq_refl) (Hok _) eq_refl eq_refl eq_refl eq_refl)
                    eq_refl "6f1c2f0e" None (Some "Renamed") None)
              eq_refl updated_issue eq_refl).
Defined.

(** X12. A mutation payload that lacks an entry surfaces as a lookup
    failure, for create issue and update issue alike: KeyError
    "success" when the flag is missing, KeyError "issue" when the flag
    is true-like but no issue is embedded, and TypeError when the
    payload itself is null. *)
Theorem mutation_payload_lookup_failures (post : request -> post_result)
    (self : client) (r : response) (body data : gmap string json) :
  (forall req, post req = PostResp r) ->
  status_ok r ->
  resp_json r = Some (JObj body) ->
  body !! "errors" = None ->
  body !! "data" = Some (JObj data) ->
  (forall team_id title description priority project_id state_id labels,
     let run := result (LinearClient.create_issue post self team_id title
                          description priority project_id state_id labels) in
     (data !! "issueCreate" = Some JNull -> run = Raise TypeError) /\
     (forall payload,
        data !! "issueCreate" = Some (JObj payload) ->
        (payload !! "success" = None -> run = Raise (KeyError "success")) /\
        (forall success,
           payload !! "success" = Some success ->
           truthy success = true ->
           payload !! "issue" = None ->
           run = Raise (KeyError "issue")))) /\
  (forall issue_id state_id title description,
     let run := result (LinearClient.update_issue post self issue_id state_id
                          title description) in
     (data !! "issueUpdate" = Some JNull -> run = Raise TypeError) /\
     (forall payload,
        data !! "issueUpdate" = Some (JObj payload) ->
        (payload !! "success" = None -> run = Raise (KeyError "success")) /\
        (forall success,
           payload !! "success" = Some success ->
           truthy success = true ->
           payload !! "issue" = None ->
           run = Raise (KeyError "issue")))).
Proof.
  intros H Hok Hjson Herr Hdata.
  assert (Hq : forall d v,
             LinearClient.query post self d v
               = ([EvPost (query_request self d (or_empty v))],
                  Ret (JObj data))).
  { intros d v.
    by rewrite (query_success post self d v r body (H _) Hok Hjson Herr),
      Hdata. }
  split.
  - intros team_id title description priority project_id state_id labels run.
    subst run. unfold LinearClient.create_issue. cbn zeta. rewrite Hq.
    split; [intros Hp; cbn; by rewrite Hp|].
    intros payload Hp. split.
    + intros Hs. cbn. rewrite Hp. cbn. by rewrite Hs.
    + intros success Hs Ht Hi. cbn. rewrite Hp. cbn. rewrite Hs. cbn.
      rewrite Ht. cbn. by rewrite Hi.
  - intros issue_id state_id title description run.
    subst run. unfold LinearClient.update_issue. cbn zeta. rewrite Hq.
    split; [intros Hp; cbn; by rewrite Hp|].
    intros payload Hp. split.
    + intros Hs. cbn. rewrite Hp. cbn. by rewrite Hs.
    + intros success Hs Ht Hi. cbn. rewrite Hp. cbn. rewrite Hs. cbn.
      rewrite Ht. cbn. by rewrite Hi.
Qed.

Lemma mutation_payload_lookup_failures_witness :
  result (LinearClient.create_issue (stub_reply 200 (JObj no_issue_fields))
            demo_client "T1" "Fix bug" "" 0 None None None)
    = Raise (KeyError "issue").
Proof.
  refine (proj2 (proj2 (proj1 (mutation_payload_lookup_failures
            (stub_reply 200 (JObj no_issue_fields)) demo_client
            (mkResponse 200 (Some (JObj no_issue_fields)))
            no_issue_fields no_issue_data
            (fun _ => eq_refl) _ eq_refl eq_refl eq_refl)
          "T1" "Fix bug" "" 0 None None None)
          no_issue_payload eq_refl)
          (JBool true) eq_refl eq_refl eq_refl).
  unfold status_ok. simpl. lia.
Defined.

(** ** The variables of the two mutations, in full *)

Ltac optional_cases :=
  unfold LinearClient.create_issue_variables,
    LinearClient.update_issue_variables, set_if_truthy;
  cbn zeta;
  repeat match goal with
         | o : option string |- _ => destruct o
         end;
  cbn [truthy_str fmap option_fmap option_map];
  repeat match goal with
         | |- context [String.eqb ?x ""] => destruct (String.eqb x "")
         end;
  cbn [negb].

(** X13. The variables of update issue always hold the issue id and
    hold each of stateId, title and description exactly when the
    caller's value is a non-empty string, with that string unchanged.
    The variables of create issue always hold teamId, title,
    description and priority as given (an empty description included)
    and hold projectId and stateId under the same condition. Neither
    mapping has any other key. *)
Theorem mutation_variables_contents :
  (forall issue_id state_id title description,
     let vars := LinearClient.update_issue_variables issue_id state_id title
                   description in
     vars !! "issueId" = Some (JStr issue_id) /\
     vars !! "stateId"
       = (if truthy_str state_id then JStr <$> state_id else None) /\
     vars !! "title" = (if truthy_str title then JStr <$> title else None) /\
     vars !! "description"
       = (if truthy_str description then JStr <$> description else None) /\
     dom vars ⊆ {["issueId"; "stateId"; "title"; "description"]}) /\
  (forall team_id title description priority project_id state_id,
     let vars := LinearClient.create_issue_variables team_id title description
                   priority project_id state_id in
     vars !! "teamId" = Some (JStr team_id) /\
     vars !! "title" = Some (JStr title) /\
     vars !! "description" = Some (JStr description) /\
     vars !! "priority" = Some (JInt priority) /\
     vars !! "projectId"
       = (if truthy_str project_id then JStr <$> project_id else None) /\
     vars !! "stateId"
       = (if truthy_str state_id then JStr <$> state_id else None) /\
     dom vars ⊆ {["teamId"; "title"; "description"; "priority";
                  "projectId"; "stateId"]}).
Proof.
  split.
  - intros issue_id state_id title description vars. subst vars.
    repeat split; optional_cases; try reflexivity;
      rewrite ?dom_insert_L, dom_empty_L; set_solver.
  - intros team_id title description priority project_id state_id vars.
    subst vars.
    repeat split; optional_cases; try reflexivity;
      rewrite ?dom_insert_L, dom_empty_L; set_solver.
Qed.

(** ** The listing and creating commands of [main] *)

Lemma run_eq {A} (c : M A) (t : list event) (o : outcome A) :
  trace c = t -> result c = o -> c = (t, o).
Proof. destruct c. cbn. by intros -> ->. Qed.

Section Commands.

Variable post : request -> post_result.
Variable r : response.
Variables body data : gmap string json.

Hypothesis Hpost : forall req, post req = PostResp r.
Hypothesis Hok : status_ok r.
Hypothesis Hjson : resp_json r = Some (JObj body).
Hypothesis Herr : body !! "errors" = None.
Hypothesis Hdata : body !! "data" = Some (JObj data).

Lemma query_data self document variables :
  LinearClient.query post self document variables
    = ([EvPost (query_request self document (or_empty variables))],
       Ret (JObj data)).
Proof.
  by rewrite (query_success post self document variables r body
                (Hpost _) Hok Hjson Herr), Hdata.
Qed.

Lemma get_teams_run self teams nodes :
  data !! "teams" = Some (JObj teams) ->
  teams !! "nodes" = Some nodes ->
  LinearClient.get_teams post self
    = ([EvPost (query_request self get_teams_query ∅)], Ret nodes).
Proof.
  intros Hteams Hnodes. apply run_eq; [apply get_teams_trace|].
  unfold LinearClient.get_teams. rewrite query_data. cbn.
  rewrite Hteams. cbn. by rewrite Hnodes.
Qed.

Lemma get_projects_run self team_id team projects nodes :
  data !! "team" = Some (JObj team) ->
  team !! "projects" = Some (JObj projects) ->
  projects !! "nodes" = Some nodes ->
  LinearClient.get_projects post self team_id
    = ([EvPost (query_request self get_projects_query
                  (<["teamId" := JStr team_id]> ∅))], Ret nodes).
Proof.
  intros Hteam Hprojects Hnodes. apply run_eq; [apply get_projects_trace|].
  unfold LinearClient.get_projects. rewrite query_data. cbn.
  rewrite Hteam. cbn. rewrite Hprojects. cbn. by rewrite Hnodes.
Qed.

Lemma for_each_team_lines (teams : list (gmap string json)) :
  Forall (has_keys ["name"; "id"; "key"]) teams ->
  for_each (JObj <$> teams) (fun team =>
    name ← getitem team "name";
    id ← getitem team "id";
    key ← getitem team "key";
    print [FLit "  "; FVal name; FLit " ("; FVal id;
           FLit ") - Key: "; FVal key])
  = (EvPrint ∘ team_line <$> teams, Ret tt).
Proof.
  induction 1 as [|team teams Hkeys _ IH]; [reflexivity|].
  cbn [fmap list_fmap for_each]. fold (@fmap list _ _ _ JObj teams).
  rewrite IH.
  unfold has_keys in Hkeys.
  apply Forall_cons in Hkeys as [[name Hname] Hkeys].
  apply Forall_cons in Hkeys as [[id Hid] Hkeys].
  apply Forall_cons in Hkeys as [[key Hkey] _].
  unfold team_line. cbn. rewrite Hname. cbn. rewrite Hid. cbn.
  rewrite Hkey. reflexivity.
Qed.

Lemma for_each_project_lines (projects : list (gmap string json)) :
  Forall (has_keys ["name"; "id"]) projects ->
  for_each (JObj <$> projects) (fun project =>
    name ← getitem project "name";
    id ← getitem project "id";
    print [FLit "  "; FVal name; FLit " ("; FVal id; FLit ")"])
  = (EvPrint ∘ project_line <$> projects, Ret tt).
Proof.
  induction 1 as [|project projects Hkeys _ IH]; [reflexivity|].
  cbn [fmap list_fmap for_each]. fold (@fmap list _ _ _ JObj projects).
  rewrite IH.
  unfold has_keys in Hkeys.
  apply Forall_cons in Hkeys as [[name Hname] Hkeys].
  apply Forall_cons in Hkeys as [[id Hid] _].
  unfold project_line. cbn. rewrite Hname. cbn. rewrite Hid. reflexivity.
Qed.

End Commands.

(** X14. With the credential set and a well-received answer whose
    teams.nodes is a list of objects that each have "name", "id" and
    "key", the teams command builds one client from the credential,
    sends one request, prints "Teams:" and then one line per team, in
    the order of the answer, and ends normally. Arguments after the
    command are ignored. *)
Theorem main_lists_teams (post : request -> post_result) (r : response)
    (body data teams_obj : gmap string json)
    (teams : list (gmap string json)) (prog : string) (rest : list string)
    (environ : gmap string string) (key : string) :
  (forall req, post req = PostResp r) ->
  status_ok r ->
  resp_json r = Some (JObj body) ->
  body !! "errors" = None ->
  body !! "data" = Some (JObj data) ->
  data !! "teams" = Some (JObj teams_obj) ->
  teams_obj !! "nodes" = Some (JArr (JObj <$> teams)) ->
  Forall (has_keys ["name"; "id"; "key"]) teams ->
  environ !! "LINEAR_API_KEY" = Some key ->
  key <> "" ->
  exists req,
    req_headers req !! "Authorization" = Some key /\
    main post (prog :: "teams" :: rest) environ
      = ([EvInit key; EvPost req; EvPrint [FLit "Teams:"]]
           ++ (EvPrint ∘ team_line <$> teams),
         Ret tt).
Proof.
  intros Hpost Hok Hjson Herr Hdata Hteams Hnodes Hkeys Henv Hkey.
  eexists. split; [|].
  2:{ unfold main. rewrite Henv, (truthy_str_Some _ Hkey).
      cbn -[LinearClient.get_teams for_each].
      rewrite (get_teams_run post r body data Hpost Hok Hjson Herr Hdata
                 _ _ _ Hteams Hnodes).
      cbn -[for_each]. rewrite (for_each_team_lines _ Hkeys).
      reflexivity. }
  reflexivity.
Qed.

Lemma main_lists_teams_witness :
  exists req,
    req_headers req !! "Authorization" = Some "lin_api_test" /\
    main (stub_reply 200 (JObj two_teams_fields))
      ["linear_sync.py"; "teams"] demo_environ
      = ([EvInit "lin_api_test"; EvPost req; EvPrint [FLit "Teams:"]]
           ++ (EvPrint ∘ team_line <$> [team_eng; team_ops]),
         Ret tt).
Proof.
  apply (main_lists_teams (stub_reply 200 (JObj two_teams_fields))
           (mkResponse 200 (Some (JObj two_teams_fields)))
           two_teams_fields two_teams_data two_teams_obj [team_eng; team_ops]
           "linear_sync.py" [] demo_environ "lin_api_test").
  - intros req. reflexivity.
  - unfold status_ok. simpl. lia.
  - reflexivity.
  - reflexivity.
  - reflexivity.
  - reflexivity.
  - reflexivity.
  - repeat constructor; eexists; reflexivity.
  - reflexivity.
  - discriminate.
Defined.

(** X15. With the credential set and a well-received answer whose
    team.projects.nodes is a list of objects that each have "name" and
    "id", the projects command sends one request whose only variable is
    teamId, the first argument after the command, prints "Projects:"
    and then one line per project in the order of the answer, and ends
    normally. *)
Theorem main_lists_projects (post : request -> post_result) (r : response)
    (body data team projects_obj : gmap string json)
    (projects : list (gmap string json)) (prog team_id : string)
    (rest : list string) (environ : gmap string string) (key : string) :
  (forall req, post req = PostResp r) ->
  status_ok r ->
  resp_json r = Some (JObj body) ->
  body !! "errors" = None ->
  body !! "data" = Some (JObj data) ->
  data !! "team" = Some (JObj team) ->
  team !! "projects" = Some (JObj projects_obj) ->
  projects_obj !! "nodes" = Some (JArr (JObj <$> projects)) ->
  Forall (has_keys ["name"; "id"]) projects ->
  environ !! "LINEAR_API_KEY" = Some key ->
  key <> "" ->
  exists req,
    request_variables req = Some (<["teamId" := JStr team_id]> ∅) /\
    main post (prog :: "projects" :: team_id :: rest) environ
      = ([EvInit key; EvPost req; EvPrint [FLit "Projects:"]]
           ++ (EvPrint ∘ project_line <$> projects),
         Ret tt).
Proof.
  intros Hpost Hok Hjson Herr Hdata Hteam Hprojects Hnodes Hkeys Henv Hkey.
  eexists. split; [|].
  2:{ unfold main. rewrite Henv, (truthy_str_Some _ Hkey).
      cbn -[LinearClient.get_projects for_each].
      rewrite (get_projects_run post r body data Hpost Hok Hjson Herr Hdata
                 _ _ _ _ _ Hteam Hprojects Hnodes).
      cbn -[for_each]. rewrite (for_each_project_lines _ Hkeys).
      reflexivity. }
  reflexivity.
Qed.

Lemma main_lists_projects_witness :
  exists req,
    request_variables req = Some (<["teamId" := JStr "t-1"]> ∅) /\
    main (stub_reply 200 (JObj one_project_fields))
      ["linear_sync.py"; "projects"; "t-1"] demo_environ
      = ([EvInit "lin_api_test"; EvPost req; EvPrint [FLit "Projects:"]]
           ++ (EvPrint ∘ project_line <$> [project_site]),
         Ret tt).
Proof.
  apply (main_lists_projects (stub_reply 200 (JObj one_project_fields))
           (mkResponse 200 (Some (JObj one_project_fields)))
           one_project_fields one_project_data one_project_team
           one_project_obj [project_site]
           "linear_sync.py" "t-1" [] demo_environ "lin_api_test").
  - intros req. reflexivity.
  - unfold status_ok. simpl. lia.
  - reflexivity.
  - reflexivity.
  - reflexivity.
  - reflexivity.
  - reflexivity.
  - reflexivity.
  - repeat constructor; eexists; reflexivity.
  - reflexivity.
  - discriminate.
Defined.

(** X16. With the credential set, the create command sends one request
    whose variables are the team id and the title from the command
    line, the fixed description "Created via API" and priority 0, and
    nothing else; on a success payload whose issue has "identifier" and
    "url" it prints these two on a line each and ends normally. *)
Theorem main_creates_issue (post : request -> post_result) (r : response)
    (body data payload issue : gmap string json) (success identifier url : json)
    (prog team_id title : string) (rest : list string)
    (environ : gmap string string) (key : string) :
  (forall req, post req = PostResp r) ->
  status_ok r ->
  resp_json r = Some (JObj body) ->
  body !! "errors" = None ->
  body !! "data" = Some (JObj data) ->
  data !! "issueCreate" = Some (JObj payload) ->
  payload !! "success" = Some success ->
  truthy success = true ->
  payload !! "issue" = Some (JObj issue) ->
  issue !! "identifier" = Some identifier ->
  issue !! "url" = Some url ->
  environ !! "LINEAR_API_KEY" = Some key ->
  key <> "" ->
  exists req,
    request_variables req
      = Some (<["teamId" := JStr team_id]>
                (<["title" := JStr title]>
                   (<["description" := JStr "Created via API"]>
                      (<["priority" := JInt 0]> ∅)))) /\
    main post (prog :: "create" :: team_id :: title :: rest) environ
      = ([EvInit key; EvPost req;
          EvPrint [FLit "Created issue: "; FVal identifier];
          EvPrint [FLit "URL: "; FVal url]],
         Ret tt).
Proof.
  intros Hpost Hok Hjson Herr Hdata Hpayload Hsuccess Htruthy Hissue Hid Hurl
    Henv Hkey.
  eexists. split; [|].
  2:{ unfold main. rewrite Henv, (truthy_str_Some _ Hkey).
      cbn -[LinearClient.create_issue].
      match goal with
      | |- context [LinearClient.create_issue post ?self ?t ?ti ?d ?p ?pr ?st ?l] =>
          rewrite (run_eq (LinearClient.create_issue post self t ti d p pr st l)
                     _ _
                     (create_issue_trace post self t ti d p pr st l)
                     (create_issue_run post self t ti d p pr st l _ _ _ _ _
                        (Hpost _) Hok Hjson Herr Hdata Hpayload Hsuccess))
      end.
      rewrite Htruthy, Hissue. cbn. rewrite Hid. cbn. rewrite Hurl.
      reflexivity. }
  reflexivity.
Qed.

Lemma main_creates_issue_witness :
  exists req,
    request_variables req
      = Some (<["teamId" := JStr "T1"]>
                (<["title" := JStr "Fix bug"]>
                   (<["description" := JStr "Created via API"]>
                      (<["priority" := JInt 0]> ∅)))) /\
    main (stub_reply 200 (JObj created_fields))
      ["linear_sync.py"; "create"; "T1"; "Fix bug"] demo_environ
      = ([EvInit "lin_api_test"; EvPost req;
          EvPrint [FLit "Created issue: "; FVal (JStr "T1-7")];
          EvPrint [FLit "URL: ";
                   FVal (JStr "https://linear.app/t1/issue/T1-7")]],
         Ret tt).
Proof.
  apply (main_creates_issue (stub_reply 200 (JObj created_fields))
           (mkResponse 200 (Some (JObj created_fields)))
           created_fields created_data created_payload created_issue
           (JBool true) (JStr "T1-7")
           (JStr "https://linear.app/t1/issue/T1-7")
           "linear_sync.py" "T1" "Fix bug" [] demo_environ "lin_api_test").
  - intros req. reflexivity.
  - unfold status_ok. simpl. lia.
  - reflexivity.
  - reflexivity.
  - reflexivity.
  - reflexivity.
  - reflexivity.
  - reflexivity.
  - reflexivity.
  - reflexivity.
  - reflexivity.
  - reflexivity.
  - discriminate.
Defined.

(** X17. [main] catches nothing: when the operation behind a command
    raises, whatever the exception, the run is the construction of the
    client, the operation's single POST and that exception, with no
    line printed, not even the "Teams:" or "Projects:" header. *)
Theorem main_propagates_client_errors (post : request -> post_result)
    (prog : string) (environ : gmap string string) (key : string)
    (self : client) (e : exn) :
  environ !! "LINEAR_API_KEY" = Some key ->
  key <> "" ->
  LinearClient.init key = ([EvInit key], Ret self) ->
  (forall rest,
     result (LinearClient.get_teams post self) = Raise e ->
     main post (prog :: "teams" :: rest) environ
       = ([EvInit key; EvPost (query_request self get_teams_query ∅)],
          Raise e)) /\
  (forall team_id rest,
     result (LinearClient.get_projects post self team_id) = Raise e ->
     main post (prog :: "projects" :: team_id :: rest) environ
       = ([EvInit key;
           EvPost (query_request self get_projects_query
                     (<["teamId" := JStr team_id]> ∅))],
          Raise e)) /\
  (forall team_id title rest,
     result (LinearClient.create_issue post self team_id title
               "Created via API" 0 None None None) = Raise e ->
     main post (prog :: "create" :: team_id :: title :: rest) environ
       = ([EvInit key;
           EvPost (query_request self create_issue_mutation
                     (LinearClient.create_issue_variables team_id title
                        "Created via API" 0 None None))],
          Raise e)).
Proof.
  intros Henv Hkey Hinit. injection Hinit as <-.
  split; [|split].
  - intros rest Hraise.
    unfold main. rewrite Henv, (truthy_str_Some _ Hkey).
    cbn -[LinearClient.get_teams for_each].
    match goal with
    | |- context [LinearClient.get_teams post ?s] =>
        rewrite (run_eq (LinearClient.get_teams post s) _ _
                   (get_teams_trace post s) Hraise)
    end.
    reflexivity.
  - intros team_id rest Hraise.
    unfold main. rewrite Henv, (truthy_str_Some _ Hkey).
    cbn -[LinearClient.get_projects for_each].
    match goal with
    | |- context [LinearClient.get_projects post ?s ?t] =>
        rewrite (run_eq (LinearClient.get_projects post s t) _ _
                   (get_projects_trace post s t) Hraise)
    end.
    reflexivity.
  - intros team_id title rest Hraise.
    unfold main. rewrite Henv, (truthy_str_Some _ Hkey).
    cbn -[LinearClient.create_issue].
    match goal with
    | |- context [LinearClient.create_issue post ?s ?t ?ti ?d ?p ?pr ?st ?l] =>
        rewrite (run_eq (LinearClient.create_issue post s t ti d p pr st l)
                   _ _ (create_issue_trace post s t ti d p pr st l) Hraise)
    end.
    reflexivity.
Qed.

Lemma main_propagates_client_errors_witness :
  main (stub_reply 404 teams_body) ["linear_sync.py"; "teams"] demo_environ
    = ([EvInit "lin_api_test";
        EvPost (query_request demo_client get_teams_query ∅)],
       Raise (HTTPError 404)).
Proof.
  refine (proj1 (main_propagates_client_errors (stub_reply 404 teams_body)
                   "linear_sync.py" demo_environ "lin_api_test" demo_client
                   (HTTPError 404) eq_refl _ eq_refl) [] eq_refl).
  discriminate.
Defined.

(** X18. [main] reads the argument list only at the command and at the
    arguments the command needs: the program name and any argument
    after those do not change the run. *)
Theorem main_ignores_extra_arguments (post : request -> post_result)
    (environ : gmap string string) (prog prog' : string)
    (rest : list string) :
  main post (prog :: "teams" :: rest) environ
    = main post [prog'; "teams"] environ /\
  (forall team_id,
     main post (prog :: "projects" :: team_id :: rest) environ
       = main post [prog'; "projects"; team_id] environ) /\
  (forall team_id title,
     main post (prog :: "create" :: team_id :: title :: rest) environ
       = main post [prog'; "create"; team_id; title] environ).
Proof.
  split; [|split]; intros; reflexivity.
Qed.

Lemma for_each_app {A} (l1 l2 : list A) (body : A -> M unit) :
  for_each (l1 ++ l2) body = (for_each l1 body;; for_each l2 body).
Proof.
  induction l1 as [|x l1 IH]; cbn [app for_each].
  - cbn. by destruct (for_each l2 body).
  - rewrite IH. destruct (body x) as [t [[]|e]]; cbn; [|reflexivity].
    destruct (for_each l1 body) as [t1 [[]|e1]]; cbn; [|reflexivity].
    destruct (for_each l2 body) as [t2 o2]. cbn. by rewrite app_assoc.
Qed.

(** X19. The teams listing is printed as it goes: the "Teams:" header
    comes out before the answer is iterated, and each team's line
    before the next team is looked at. So when teams.nodes is null the
    header is printed and TypeError follows; and when an entry lacks
    "name", the header and the lines of the entries before it are
    printed, KeyError "name" follows, and no later entry is printed. *)
Theorem main_teams_partial_output (post : request -> post_result)
    (r : response) (body data teams_obj : gmap string json) (prog : string)
    (rest : list string) (environ : gmap string string) (key : string) :
  (forall req, post req = PostResp r) ->
  status_ok r ->
  resp_json r = Some (JObj body) ->
  body !! "errors" = None ->
  body !! "data" = Some (JObj data) ->
  data !! "teams" = Some (JObj teams_obj) ->
  environ !! "LINEAR_API_KEY" = Some key ->
  key <> "" ->
  exists req,
    (teams_obj !! "nodes" = Some JNull ->
     main post (prog :: "teams" :: rest) environ
       = ([EvInit key; EvPost req; EvPrint [FLit "Teams:"]], Raise TypeError)) /\
    (forall good bad later,
       teams_obj !! "nodes"
         = Some (JArr ((JObj <$> good) ++ JObj bad :: later)) ->
       Forall (has_keys ["name"; "id"; "key"]) good ->
       bad !! "name" = None ->
       main post (prog :: "teams" :: rest) environ
         = ([EvInit key; EvPost req; EvPrint [FLit "Teams:"]]
              ++ (EvPrint ∘ team_line <$> good),
            Raise (KeyError "name"))).
Proof.
  intros Hpost Hok Hjson Herr Hdata Hteams Henv Hkey.
  eexists. split.
  - intros Hnodes.
    unfold main. rewrite Henv, (truthy_str_Some _ Hkey).
    cbn -[LinearClient.get_teams for_each].
    rewrite (get_teams_run post r body data Hpost Hok Hjson Herr Hdata
               _ _ _ Hteams Hnodes).
    reflexivity.
  - intros good bad later Hnodes Hkeys Hbad.
    unfold main. rewrite Henv, (truthy_str_Some _ Hkey).
    cbn -[LinearClient.get_teams for_each].
    rewrite (get_teams_run post r body data Hpost Hok Hjson Herr Hdata
               _ _ _ Hteams Hnodes).
    cbn -[for_each]. rewrite for_each_app, (for_each_team_lines _ Hkeys).
    cbn. rewrite Hbad. cbn. by rewrite app_nil_r.
Qed.

Lemma main_teams_partial_output_witness :
  exists req,
    main (stub_reply 200 (JObj broken_teams_fields))
      ["linear_sync.py"; "teams"] demo_environ
      = ([EvInit "lin_api_test"; EvPost req; EvPrint [FLit "Teams:"]]
           ++ (EvPrint ∘ team_line <$> [team_eng]),
         Raise (KeyError "name")).
Proof.
  assert (Hok : status_ok (mkResponse 200 (Some (JObj broken_teams_fields))))
    by (unfold status_ok; simpl; lia).
  assert (Hkey : "lin_api_test" <> "") by discriminate.
  destruct (main_teams_partial_output
              (stub_reply 200 (JObj broken_teams_fields))
              (mkResponse 200 (Some (JObj broken_teams_fields)))
              broken_teams_fields broken_teams_data broken_teams_obj
              "linear_sync.py" [] demo_environ "lin_api_test"
              (fun _ => eq_refl) Hok eq_refl eq_refl eq_refl eq_refl eq_refl
              Hkey) as [req [_ Hpartial]].
  exists req.
  apply (Hpartial [team_eng] ∅ [JObj team_ops]).
  - reflexivity.
  - repeat constructor; eexists; reflexivity.
  - reflexivity.
Defined.
